(* ===== verification/_CoqProject ===== *)
-Q . S2P
Prelude.v
PyStr.v
Config.v
Table.v
Naming.v
World.v
Retry.v
Renamer.v
Refinamento.v
Main.v
Conserva.v
