(* ===== verification/Prelude.v ===== *)
(** * A verification development for [projeto_renomear_arquivos.py]

    The program ([src/projeto_renomear_arquivos.py], one Python file) renames
    the files of one folder after the rows of an Excel sheet: the stem of each
    file (its name without extension, stripped) is looked up as a process
    number in the sheet, and the file is renamed to
    ["{processo} - {advogado} - {cliente} X {adverso}{extensao}"], cleaned of
    the characters Windows refuses in file names and of runs of whitespace.
    A rename that fails with an [OSError] is retried a bounded number of times
    with a sleep between attempts; counters of renamed, unmatched and failed
    files are printed at the end.

    ** Parts of the program and where they are modelled

    - [Prelude] (this file): the state/exception monad in which the Python
      function is written ([stexc], notation [x <- m ;; k] in [py_scope]),
      its laws in the rewrite base [py_rw], the tactics [py_run] and
      [case_test], list lemmas shared by the components.
    - [PyStr]: the Python string operations the program uses, on
      [pystr = list ascii] (a Python [str] whose code points are below 256):
      [str.isspace], [str.strip], [str.split()], ['sep'.join],
      [str.replace(c, '')], [os.path.splitext] and [os.path.join] of
      [ntpath] (the program runs on Windows), [str] of an integer.
    - [Config]: the constants of lines 6-25 and the parameters of
      [renomear_arquivos_por_planilha] as the record [config].
    - [Table] (Table Loader, lines 75-99): cells (str, int, NaN), sheets,
      [pd.read_excel] with [usecols] ([ler_aba]), [dropna],
      [duplicated().any()], [drop_duplicates(keep='first')],
      [set_index(...).to_dict('index')].
    - [Naming] (Filename Synthesizer, lines 129-147): the fields, the
      f-string, the removal of the nine characters, the whitespace collapse.
    - [World]: the world the program acts on (file system as a [gmap] from
      path to node, a lock oracle telling when another process holds a
      file open, a clock, the trace of [os.rename]/[time.sleep] calls, the
      printed messages) and its actions, with Windows [os.rename] semantics
      (no replacement of an existing target); the effect predicates
      [preserva_fs] and [levanta_so] with the hint base [efeitos].
    - [Retry] (Rename Executor, lines 156-172): the attempts loop and the
      check of line 171.
    - [Renamer] (lines 116-175): one file, and the loop over the folder.
    - [Refinamento]: the contract of spec section 4.4 as a step relation
      ([Spec.passo], [Spec.execucao]) and the simulation showing the loop
      refines it.
    - [Main] (lines 28-202 and 247-269): the spreadsheet and folder checks,
      the body of the [try], the handler chosen for each exception class,
      the validation loop of the [__main__] block and [main] itself.
    - [Conserva]: the invariant that no run loses or overwrites a file.

    Components interact through the monad: each Python call is a
    computation [PyM A] on the world, and the functions compose them with
    [bind] and [catch] as the code sequences them and nests [try].

    ** Theorems
    - PyStr: [os.path.splitext] cuts at the last dot after the last
      separator.
    - Naming: a new name has none of the characters the specification
      forbids (a list of its own, [proibidos]), normalized spacing, keeps
      exactly the other characters, always differs from the old name (so
      line 151 is dead); the nine replaces are one filter.
    - Table: lines 83-99 never raise, the table holds the first row of each
      process number, the duplicated-test is an optimisation of
      [drop_duplicates], every entry has the three columns.
    - Retry: 1 to [max_tentativas] renames; a file held open is tried
      exactly [max_tentativas] times and counted twice as an error; a file
      released in time is renamed; a negative delay aborts with ValueError.
    - Renamer/Refinamento: the loop always returns and refines the contract
      with twice its error count; unmatched files stay; a sheet whose
      process numbers are numbers renames nothing.
    - Main: every exception is handled, and an [OSError] that reaches a
      handler was raised before any rename (rename failures stay local); a
      missing spreadsheet or column ends in the expected handler (the
      column in the [ValueError] handler, not the [KeyError] one); the
      validation loop terminates at the first directory or with EOFError;
      [main] never reports NotADirectoryError.
    - Conserva: the entries of the file system are conserved by [main].

    ** Bounds and fuel
    Every loop of the program is a structural recursion over a finite
    list (the attempts [range(1, max_tentativas + 1)], the files of the
    folder, the lines the user types), so no fuel is needed.  [time.sleep]
    and the clock use [Z]; counters use [nat], as Python ints do not wrap.

    ** Not modelled
    The xlsx format and pandas' parsing (a workbook is given as its
    sheets), pandas' type inference beyond the three cell kinds, the text
    of the printed messages (a message is a constructor with its data),
    Windows' case-insensitive path comparison and path normalisation,
    directory listing order (the model lists in map order), and
    interruptions such as KeyboardInterrupt.  The test set-up of lines
    206-245 is commented out in the source and never runs; it is not
    modelled.  Windows rename failures other than a missing source, a file
    held open and an existing target (path length, reserved names, case
    collisions) are not modelled.
*)

From stdpp Require Import base list.
From Stdlib Require Import ZArith Lia.

(** ** A state and exception monad

    A Python function that reads and changes the world and may raise is
    modelled as a function from the world to a result (an exception of type
    [E] or a value) and the world after it. *)

Definition stexc (S E A : Type) : Type := S -> (E + A) * S.

Section StExc.
Context {S E : Type}.

Definition ret {A} (a : A) : stexc S E A := fun s => (inr a, s).

Definition bind {A B} (m : stexc S E A) (k : A -> stexc S E B) : stexc S E B :=
    fun s => match m s with
             | (inr a, s') => k a s'
             | (inl e, s') => (inl e, s')
             end.

Definition raise {A} (e : E) : stexc S E A := fun s => (inl e, s).

Definition get : stexc S E S := fun s => (inr s, s).

Definition modify (f : S -> S) : stexc S E unit := fun s => (inr tt, f s).

  (** [try: m except: h]: the handler sees the exception and the world as
      it was when the exception was raised. *)
Definition catch {A} (m : stexc S E A) (h : E -> stexc S E A) : stexc S E A :=
    fun s => match m s with
             | (inl e, s') => h e s'
             | r => r
             end.

Lemma bind_ret_l {A B} (a : A) (k : A -> stexc S E B) s :
    bind (ret a) k s = k a s.
  Proof. reflexivity. Qed.

Lemma bind_raise {A B} (e : E) (k : A -> stexc S E B) s :
    bind (raise e) k s = (inl e, s).
  Proof. reflexivity. Qed.

Lemma bind_assoc {A B C} (m : stexc S E A) (k : A -> stexc S E B)
        (k' : B -> stexc S E C) s :
    bind (bind m k) k' s = bind m (fun a => bind (k a) k') s.
  Proof. unfold bind. by destruct (m s) as [[e|a] s']. Qed.

Lemma bind_inr {A B} (m : stexc S E A) (k : A -> stexc S E B) s a s' :
    m s = (inr a, s') -> bind m k s = k a s'.
  Proof. unfold bind. by intros ->. Qed.

Lemma bind_inl {A B} (m : stexc S E A) (k : A -> stexc S E B) s e s' :
    m s = (inl e, s') -> bind m k s = (inl e, s').
  Proof. unfold bind. by intros ->. Qed.

Lemma catch_inr {A} (m : stexc S E A) h s a s' :
    m s = (inr a, s') -> catch m h s = (inr a, s').
  Proof. unfold catch. by intros ->. Qed.

Lemma catch_inl {A} (m : stexc S E A) h s e s' :
    m s = (inl e, s') -> catch m h s = h e s'.
  Proof. unfold catch. by intros ->. Qed.
End StExc.

Arguments stexc : clear implicits.

Declare Scope py_scope.
Delimit Scope py_scope with py.
Notation "x <- m ;; k" := (bind m (fun x => k))
  (at level 100, m at next level, right associativity) : py_scope.
Notation "m ;;; k" := (bind m (fun _ => k))
  (at level 100, right associativity) : py_scope.

Create HintDb py.
Create Rewrite HintDb py_rw.
#[export] Hint Rewrite @bind_ret_l @bind_raise @bind_assoc : py_rw.

(** [py_run] pushes a computation through its binds as far as the world and
    the branches allow. *)
Ltac py_run :=
  repeat (autorewrite with py_rw; cbn [fst snd]);
  try (unfold ret, raise, get, modify; cbn [fst snd]).

(** Case analysis on the first [if] or [match] on a boolean test of the goal,
    remembering the test. *)
Ltac case_test :=
  match goal with
  | |- context [if ?b then _ else _] => let E := fresh "E" in destruct b eqn:E
  end.

(** ** Shared facts on lists and naturals *)

Lemma length_filter_le {A} (p : A -> bool) (l : list A) :
  length (List.filter p l) <= length l.
Proof. induction l as [|x l IH]; simpl; [lia|]. destruct (p x); simpl; lia. Qed.

Lemma filter_filter_andb {A} (p q : A -> bool) (l : list A) :
  List.filter p (List.filter q l) = List.filter (fun x => q x && p x) l.
Proof.
  induction l as [|x l IH]; simpl; [done|].
  destruct (q x); simpl; [destruct (p x); simpl|]; by rewrite ?IH.
Qed.

(** Filtering first by a weaker test changes nothing. *)
Lemma filter_filter_weaker {A} (p q : A -> bool) (l : list A) :
  (forall x, p x = true -> q x = true) ->
  List.filter p (List.filter q l) = List.filter p l.
Proof.
  intros Hpq. rewrite filter_filter_andb. apply filter_ext. intros x.
  specialize (Hpq x). destruct (p x), (q x); naive_solver.
Qed.

#[export] Hint Resolve length_filter_le : py.
