(* ===== verification/PyStr.v ===== *)
(** * Python strings and the [str] / [os.path] operations the program uses

    A Python [str] is modelled as [pystr := list ascii], a sequence of code
    points, each [ascii] read as the code point U+0000..U+00FF it encodes
    (Latin-1, which covers the Portuguese names of the sheet).  Each
    operation follows CPython's definition on that range:
    [str.isspace], [str.strip()], [str.split()], ['sep'.join],
    [str.replace(c, '')], [str(int)], and [ntpath.splitext] /
    [ntpath.join] (the program targets Windows: [r"y:\..."]). *)

From S2P Require Import Prelude.
From stdpp Require Import base list decidable strings sets.
From Stdlib Require Import Ascii String ZArith DecimalString Lia Btauto.

Abbreviation pystr := (list ascii).

(** A Python literal, written as a Rocq string. *)
Definition lit (s : string) : pystr := list_ascii_of_string s.

(** ** Characters *)

(** The code points below 256 for which CPython's [str.isspace] holds:
    HT, LF, VT, FF, CR, the four information separators 0x1C..0x1F, space,
    NEL (0x85) and NO-BREAK SPACE (0xA0).  [str.strip()] and [str.split()]
    strip and split on exactly these. *)
Definition py_whitespace : list ascii :=
  ["009"; "010"; "011"; "012"; "013"; "028"; "029"; "030"; "031"; " ";
   "133"; "160"]%char.

Definition is_space (c : ascii) : bool := bool_decide (c ∈ py_whitespace).

Definition not_space (c : ascii) : bool := negb (is_space c).

(** ** [str.strip()] *)

Fixpoint lstrip (s : pystr) : pystr :=
  match s with
  | c :: s' => if is_space c then lstrip s' else s
  | [] => []
  end.

Definition rstrip (s : pystr) : pystr := rev (lstrip (rev s)).

Definition strip (s : pystr) : pystr := rstrip (lstrip s).

(** ** [str.split()] with no separator: the maximal runs of non-whitespace,
    in order, with no empty string.  [cur] is the word being read. *)

Fixpoint split_go (cur : pystr) (s : pystr) : list pystr :=
  match s with
  | [] => match cur with [] => [] | _ => [cur] end
  | c :: s' =>
      if is_space c then
        match cur with
        | [] => split_go [] s'
        | _ => cur :: split_go [] s'
        end
      else split_go (cur ++ [c]) s'
  end.

Definition split_ws (s : pystr) : list pystr := split_go [] s.

(** ** [sep.join(words)] *)

Fixpoint join_with (sep : pystr) (ws : list pystr) : pystr :=
  match ws with
  | [] => []
  | [w] => w
  | w :: ws' => w ++ sep ++ join_with sep ws'
  end.

(** ** [s.replace(c, '')] for a one-character [c]: every occurrence of [c]
    removed. *)

Fixpoint replace_empty (s : pystr) (c : ascii) : pystr :=
  match s with
  | [] => []
  | d :: s' => if Ascii.eqb d c then replace_empty s' c else d :: replace_empty s' c
  end.

(** ** [str(n)] for a Python [int]: its decimal digits, with a leading
    minus sign when negative. *)

Definition str_int (z : Z) : pystr :=
  lit (NilZero.string_of_int (Z.to_int z)).

(** ** [ntpath.splitext]

    [genericpath._splitext(p, '\\', '/', '.')]: the extension starts at the
    last dot that comes after the last separator, provided a character other
    than a dot precedes it in the last component (so [".bashrc"] has no
    extension).  Indices are Python's: [-1] when [rfind] finds nothing. *)

Fixpoint rfind_go (p : ascii -> bool) (s : pystr) (i acc : Z) : Z :=
  match s with
  | [] => acc
  | c :: s' => rfind_go p s' (i + 1) (if p c then i else acc)
  end.

Definition rfind (p : ascii -> bool) (s : pystr) : Z := rfind_go p s 0 (-1).

Definition slice (i j : Z) (s : pystr) : pystr :=
  take (Z.to_nat j - Z.to_nat i) (drop (Z.to_nat i) s).

Definition splitext (p : pystr) : pystr * pystr :=
  let sepIndex := Z.max (rfind (fun c => Ascii.eqb c "\") p)
                        (rfind (fun c => Ascii.eqb c "/") p) in
  let dotIndex := rfind (fun c => Ascii.eqb c ".") p in
  if Z.ltb sepIndex dotIndex then
    (* skip all leading dots of the last component *)
    if existsb (fun c => negb (Ascii.eqb c ".")) (slice (sepIndex + 1) dotIndex p)
    then (take (Z.to_nat dotIndex) p, drop (Z.to_nat dotIndex) p)
    else (p, [])
  else (p, []).

(** ** [ntpath.join(path, name)] for a [name] with no drive and no root,
    the only kind the program joins (a name returned by [os.listdir] and a
    name cleaned of [\ / :]).  A backslash is put between the two unless the
    path is empty, already ends in a separator, or is a bare drive ["X:"]. *)

Definition is_sep (c : ascii) : bool := Ascii.eqb c "\" || Ascii.eqb c "/".

Definition bare_drive (dir : pystr) : bool :=
  match dir with
  | [_; c] => Ascii.eqb c ":"
  | _ => false
  end.

Definition needs_sep (dir : pystr) : bool :=
  match last dir with
  | None => false
  | Some c => negb (is_sep c) && negb (bare_drive dir)
  end.

Definition path_join (dir name : pystr) : pystr :=
  dir ++ (if needs_sep dir then ["\"%char] else []) ++ name.

(** ** Spacing of a cleaned name

    [normalized s]: [s] neither starts nor ends with whitespace, has no two
    whitespace characters in a row, and its only whitespace is the plain
    space U+0020. *)

Fixpoint no_space_run (s : pystr) : bool :=
  match s with
  | c1 :: ((c2 :: _) as s') => negb (is_space c1 && is_space c2) && no_space_run s'
  | _ => true
  end.

Definition starts_clean (s : pystr) : bool :=
  match s with [] => true | c :: _ => not_space c end.

Definition ends_clean (s : pystr) : bool :=
  match last s with None => true | Some c => not_space c end.

Definition only_plain_spaces (s : pystr) : bool :=
  forallb (fun c => not_space c || Ascii.eqb c " ") s.

Definition normalized (s : pystr) : bool :=
  starts_clean s && ends_clean s && no_space_run s && only_plain_spaces s.

(** A word of [str.split()] is not empty and has no whitespace. *)
Definition word_ok (w : pystr) : Prop := w <> [] /\ Forall (fun c => not_space c = true) w.

(** ** Concrete runs *)

Example strip_ex : strip (lit "  Dr. Fulano 	") = lit "Dr. Fulano".
Proof. reflexivity. Qed.

Example split_ex : split_ws (lit "  a  b	c ") = [lit "a"; lit "b"; lit "c"].
Proof. reflexivity. Qed.

Example splitext_ex1 : splitext (lit "12345.pdf") = (lit "12345", lit ".pdf").
Proof. reflexivity. Qed.

Example splitext_ex2 : splitext (lit ".bashrc") = (lit ".bashrc", []).
Proof. reflexivity. Qed.

Example splitext_ex3 : splitext (lit "a.tar.gz") = (lit "a.tar", lit ".gz").
Proof. reflexivity. Qed.

Example join_ex : path_join (lit "y:\pasta") (lit "1.pdf") = lit "y:\pasta\1.pdf".
Proof. reflexivity. Qed.

Example str_int_ex : str_int (-120) = lit "-120".
Proof. reflexivity. Qed.

(** ** Facts on the string operations *)

Lemma is_space_spec c : is_space c = true <-> c ∈ py_whitespace.
Proof. unfold is_space. by rewrite bool_decide_eq_true. Qed.

Lemma not_space_space : not_space " "%char = false.
Proof. reflexivity. Qed.

(** Stripping removes whitespace only. *)
Lemma filter_lstrip s : List.filter not_space (lstrip s) = List.filter not_space s.
Proof.
  induction s as [|c s IH]; simpl; [done|].
  unfold not_space at 2. destruct (is_space c) eqn:E; simpl; [done|].
  unfold not_space at 1. by rewrite E.
Qed.

Lemma filter_strip s : List.filter not_space (strip s) = List.filter not_space s.
Proof.
  unfold strip, rstrip.
  by rewrite filter_rev, filter_lstrip, <- filter_rev, rev_involutive, filter_lstrip.
Qed.

(** [lstrip] leaves a string that starts with a non-space alone. *)
Lemma lstrip_id s :
  (match s with [] => true | c :: _ => not_space c end) = true -> lstrip s = s.
Proof. destruct s as [|c s]; simpl; [done|]. unfold not_space. by destruct (is_space c). Qed.

Lemma head_rev_last {A} (s : list A) :
  (match rev s with [] => None | c :: _ => Some c end) = last s.
Proof.
  induction s as [|x s IH] using rev_ind; [done|].
  by rewrite rev_unit, last_snoc.
Qed.

(** [str.split()] keeps every non-space character, in order: the words,
    with their non-spaces, concatenate to the non-spaces of the input. *)
Lemma split_go_filter cur s :
  List.concat (map (List.filter not_space) (split_go cur s)) = List.filter not_space (cur ++ s).
Proof.
  revert cur. induction s as [|c s IH]; intros cur; simpl.
  - rewrite app_nil_r. destruct cur; simpl; [done|]. by rewrite app_nil_r.
  - rewrite List.filter_app. cbn [List.filter]. unfold not_space at 3.
    destruct (is_space c) eqn:E; cbn [negb].
    + by destruct cur as [|d cur]; simpl; rewrite IH.
    + assert (Hc : not_space c = true) by (unfold not_space; by rewrite E).
      rewrite IH, !List.filter_app. cbn [List.filter]. rewrite Hc. by rewrite <- app_assoc.
Qed.

Lemma split_go_words cur s :
  Forall (fun c => not_space c = true) cur -> Forall word_ok (split_go cur s).
Proof.
  revert cur. induction s as [|c s IH]; intros cur Hcur; simpl.
  - destruct cur; constructor; [split; [done|done]|constructor].
  - destruct (is_space c) eqn:E.
    + destruct cur as [|d cur]; [by apply IH|].
      constructor; [split; [done|done]|]. by apply IH.
    + apply IH. apply Forall_app. split; [done|]. constructor; [|constructor].
      unfold not_space. by rewrite E.
Qed.

Lemma split_ws_words s : Forall word_ok (split_ws s).
Proof. apply split_go_words. constructor. Qed.

Lemma filter_word w : word_ok w -> List.filter not_space w = w.
Proof.
  intros [_ Hw]. apply forallb_filter_id, forallb_forall.
  by apply List.Forall_forall.
Qed.

Lemma filter_join_space ws :
  List.filter not_space (join_with [" "%char] ws) = List.concat (map (List.filter not_space) ws).
Proof.
  induction ws as [|w ws IH]; [done|].
  destruct ws as [|w' ws]; simpl.
  - by rewrite app_nil_r.
  - rewrite List.filter_app. simpl in IH |- *. by rewrite IH.
Qed.

(** [' '.join(s.split())] keeps the non-whitespace characters of [s] in
    order and drops the rest. *)
Lemma filter_join_split s :
  List.filter not_space (join_with [" "%char] (split_ws s)) = List.filter not_space s.
Proof. rewrite filter_join_space. unfold split_ws. by rewrite split_go_filter. Qed.

(** ** [os.path.splitext] *)

(** [os.path.splitext] cuts a name in two parts whose concatenation is the
    name. *)
Lemma splitext_app p : (splitext p).1 ++ (splitext p).2 = p.
Proof.
  unfold splitext. destruct (Z.ltb _ _); [destruct (existsb _ _)|]; simpl;
    rewrite ?take_drop, ?app_nil_r; done.
Qed.

(** [rfind]: [-1] when no character satisfies [p], otherwise the index of
    the last one that does. *)
Lemma rfind_go_spec (p : ascii -> bool) s i acc :
  (Forall (fun c => p c = false) s /\ rfind_go p s i acc = acc) \/
  (exists k c, rfind_go p s i acc = (i + Z.of_nat k)%Z /\ s !! k = Some c /\ p c = true /\
               Forall (fun c => p c = false) (drop (S k) s)).
Proof.
  revert i acc. induction s as [|c s IH]; intros i acc; [by left|]. simpl.
  destruct (IH (i + 1)%Z (if p c then i else acc)) as [[Hs ->] | (k & c' & -> & Hk & Hc & Hd)].
  - destruct (p c) eqn:Hpc; [right; exists 0, c; rewrite Z.add_0_r; by auto|].
    left. by split; [constructor|].
  - right. exists (S k), c'. split; [lia|]. done.
Qed.

Lemma rfind_spec (p : ascii -> bool) s :
  (Forall (fun c => p c = false) s /\ rfind p s = (-1)%Z) \/
  (exists k c, rfind p s = Z.of_nat k /\ s !! k = Some c /\ p c = true /\
               Forall (fun c => p c = false) (drop (S k) s)).
Proof. unfold rfind. destruct (rfind_go_spec p s 0 (-1)) as [H|(k & c & E & H)]; [by left|right]. eauto. Qed.

(** No character after the last index [rfind] finds satisfies [p]. *)
Lemma rfind_depois (p : ascii -> bool) s k :
  (rfind p s < Z.of_nat k)%Z -> Forall (fun c => p c = false) (drop (S k) s).
Proof.
  intros Hlt. destruct (rfind_spec p s) as [[H _]|(k' & c & E & _ & _ & H)]; [by apply Forall_drop|].
  rewrite E in Hlt. replace (S k) with (S k' + (k - k')) by lia. rewrite <- drop_drop.
  by apply Forall_drop.
Qed.


(** ** [os.path.join] on one folder is injective in the name *)
Lemma path_join_inj dir n1 n2 : path_join dir n1 = path_join dir n2 -> n1 = n2.
Proof. unfold path_join. intros H. by apply app_inv_head in H; apply app_inv_head in H. Qed.

(** ** Normalized spacing *)

Definition space_edge (a b : pystr) : bool :=
  match last a, head b with
  | Some x, Some y => is_space x && is_space y
  | _, _ => false
  end.

Lemma no_space_run_app a b :
  no_space_run (a ++ b) = no_space_run a && no_space_run b && negb (space_edge a b).
Proof.
  unfold space_edge. induction a as [|x a IH]; simpl.
  - by rewrite andb_true_r.
  - destruct a as [|y a]; simpl.
    + destruct b as [|y b]; simpl; [done|]. by rewrite andb_comm.
    + simpl in IH. rewrite IH.
      destruct (last (y :: a)), (head b); simpl; btauto.
Qed.

Lemma only_plain_spaces_app a b :
  only_plain_spaces (a ++ b) = only_plain_spaces a && only_plain_spaces b.
Proof. apply forallb_app. Qed.

Lemma no_space_run_word w : Forall (fun c => not_space c = true) w -> no_space_run w = true.
Proof.
  induction w as [|x w IH]; intros Hw; [done|].
  inversion Hw as [|? ? Hx Hw']; subst. destruct w as [|y w]; [done|].
  inversion Hw' as [|? ? Hy _]; subst.
  simpl in IH |- *. rewrite IH by done. unfold not_space in Hx. by destruct (is_space x).
Qed.

Lemma only_plain_word w : Forall (fun c => not_space c = true) w -> only_plain_spaces w = true.
Proof.
  intros Hw. apply forallb_forall. intros x Hx.
  by rewrite (proj1 (List.Forall_forall _ _) Hw x Hx).
Qed.

Lemma last_word w : word_ok w -> exists c, last w = Some c /\ not_space c = true.
Proof.
  intros [Hne Hw]. destruct (last w) as [c|] eqn:E.
  - exists c. split; [done|]. apply last_Some_elem_of in E.
    by apply (proj1 (Forall_forall _ _) Hw).
  - by apply last_None in E.
Qed.

Lemma join_with_cons2 sep w w' ws :
  join_with sep (w :: w' :: ws) = w ++ sep ++ join_with sep (w' :: ws).
Proof. reflexivity. Qed.

(** The join of good words with single spaces: its first and last characters,
    and its spacing. *)
Lemma join_words_shape ws :
  Forall word_ok ws -> ws <> [] ->
  (exists c, head (join_with [" "%char] ws) = Some c /\ not_space c = true) /\
  (exists c, last (join_with [" "%char] ws) = Some c /\ not_space c = true) /\
  no_space_run (join_with [" "%char] ws) = true /\
  only_plain_spaces (join_with [" "%char] ws) = true.
Proof.
  induction ws as [|w ws IH]; intros Hws Hnil; [congruence|].
  inversion Hws as [|? ? Hw Hws']; subst.
  destruct ws as [|w' ws].
  - cbn [join_with]. pose proof (last_word w Hw) as Hl.
    destruct Hw as [Hne Hw']. destruct w as [|x w]; [done|].
    split; [exists x; split; [done|by inversion Hw']|].
    split; [done|].
    split; [by apply no_space_run_word|by apply only_plain_word].
  - destruct (IH Hws' ltac:(done)) as ([y [Hy Hy']] & [z [Hz Hz']] & Hrun & Hplain).
    destruct (last_word w Hw) as [u [Hu Hu']].
    destruct Hw as [Hne Hw']. rewrite join_with_cons2.
    set (J := join_with _ (w' :: ws)) in *.
    split; [destruct w as [|x w]; [done|]; inversion Hw'; subst; by exists x|].
    split; [exists z; by rewrite !last_app, Hz|].
    rewrite !no_space_run_app, !only_plain_spaces_app, no_space_run_word, only_plain_word,
      Hrun, Hplain by done.
    unfold space_edge. rewrite Hu. simpl. rewrite Hy.
    unfold not_space in Hu', Hy'. by destruct (is_space u), (is_space y).
Qed.

Lemma starts_clean_head s c : head s = Some c -> not_space c = true -> starts_clean s = true.
Proof. destruct s; simpl; congruence. Qed.

Lemma ends_clean_last s c : last s = Some c -> not_space c = true -> ends_clean s = true.
Proof. unfold ends_clean. by intros -> ?. Qed.

(** Stripping a string that starts and ends with a non-space does nothing. *)
Lemma strip_clean s :
  starts_clean s = true -> ends_clean s = true -> strip s = s.
Proof.
  intros Hs He. unfold strip, rstrip. rewrite (lstrip_id s Hs).
  rewrite lstrip_id; [apply rev_involutive|].
  unfold ends_clean in He. rewrite <- head_rev_last in He.
  by destruct (rev s).
Qed.

(** ** [str.replace(c, '')] and a loop of them *)

Lemma replace_empty_filter s c :
  replace_empty s c = List.filter (fun d => negb (Ascii.eqb d c)) s.
Proof. induction s as [|d s IH]; simpl; [done|]. by destruct (Ascii.eqb d c); rewrite IH. Qed.

(** Removing the characters of [cs] one after the other is one filter
    that keeps the characters outside [cs]. *)
Lemma fold_replace_empty cs s :
  fold_left replace_empty cs s = List.filter (fun d => negb (bool_decide (d ∈ cs))) s.
Proof.
  revert s. induction cs as [|c cs IH]; intros s; simpl.
  - symmetry. rewrite <- (filter_true s) at 2. apply filter_ext. intros d.
    done.
  - rewrite IH, replace_empty_filter, filter_filter_andb. apply filter_ext. intros d.
    destruct (Ascii.eqb_spec d c) as [->|Hne]; simpl;
      repeat case_bool_decide; simpl; set_solver.
Qed.

(** Stripping and collapsing keep the non-space characters of a string. *)
Lemma filter_space_free (p : ascii -> bool) s :
  (forall c, p c = true -> not_space c = true) ->
  List.filter p (strip (join_with [" "%char] (split_ws s))) = List.filter p s.
Proof.
  intros Hp. rewrite <- (filter_filter_weaker p not_space s Hp).
  rewrite <- (filter_filter_weaker p not_space _ Hp).
  by rewrite filter_strip, filter_join_split.
Qed.
