(* ===== verification/Config.v ===== *)
(** * Configuration of the renamer

    The constants of [src/projeto_renomear_arquivos.py] (lines 6-25) and the
    parameters of [renomear_arquivos_por_planilha] (lines 28-38), gathered in
    the record [config]; [config_padrao] is the call of the [__main__] block
    (lines 257-265), which passes the constants and keeps the defaults of
    [max_tentativas] and [atraso_entre_tentativas].  Non-ASCII letters of the
    column names are written as their Latin-1 code points. *)

From S2P Require Import Prelude.
From S2P Require Import PyStr.
From stdpp Require Import base list strings.
From Stdlib Require Import Ascii String ZArith.

Definition CAMINHO_PARA_MINHA_PLANILHA : pystr :=
  lit "y:\2.Planilhas Principais\PLANILHA GERAL 3.xlsx".

Definition NOME_DA_ABA_PLANILHA : pystr := lit "Processo".

(** ["Número do processo"]: [ú] is U+00FA. *)
Definition COLUNA_NUMERO_PROCESSO : pystr :=
  lit "N" ++ ["250"%char] ++ lit "mero do processo".

Definition COLUNA_NOME_CLIENTE : pystr := lit "Cliente principal".

(** ["Contrário principal"]: [á] is U+00E1. *)
Definition COLUNA_PARTE_ADVERSA : pystr :=
  lit "Contr" ++ ["225"%char] ++ lit "rio principal".

Definition COLUNA_NOME_ADVOGADO : pystr := lit "ADVOGADO".

(** Python [int]s, kept as [Z]: the code compares and ranges over them as
    integers of any sign. *)
Definition NUM_TENTATIVAS : Z := 3.
Definition ATRASO_SEGUNDOS : Z := 1.

(** The parameters of [renomear_arquivos_por_planilha]. *)
Record config := mk_config {
  caminho_planilha : pystr;
  nome_aba_planilha : pystr;
  coluna_processo_planilha : pystr;
  coluna_cliente_planilha : pystr;
  coluna_parte_adversa_planilha : pystr;
  coluna_advogado_planilha : pystr;
  pasta_arquivos : pystr;
  max_tentativas : Z;
  atraso_entre_tentativas : Z
}.

(** The call of the [__main__] block, for the folder the user typed. *)
Definition config_padrao (pasta : pystr) : config := {|
  caminho_planilha := CAMINHO_PARA_MINHA_PLANILHA;
  nome_aba_planilha := NOME_DA_ABA_PLANILHA;
  coluna_processo_planilha := COLUNA_NUMERO_PROCESSO;
  coluna_cliente_planilha := COLUNA_NOME_CLIENTE;
  coluna_parte_adversa_planilha := COLUNA_PARTE_ADVERSA;
  coluna_advogado_planilha := COLUNA_NOME_ADVOGADO;
  pasta_arquivos := pasta;
  max_tentativas := NUM_TENTATIVAS;
  atraso_entre_tentativas := ATRASO_SEGUNDOS
|}.

(** The four column names the program is configured with are distinct. *)
Lemma colunas_padrao_distintas :
  NoDup [COLUNA_NUMERO_PROCESSO; COLUNA_NOME_CLIENTE; COLUNA_PARTE_ADVERSA;
         COLUNA_NOME_ADVOGADO].
Proof. apply NoDup_ListNoDup. vm_compute. repeat constructor; simpl; intuition discriminate. Qed.
