(* ===== verification/Table.v ===== *)
(** * The spreadsheet and the lookup table (Table Loader)

    Lines 59-100 of [src/projeto_renomear_arquivos.py]: the sheet is read
    with [pd.read_excel(..., usecols=colunas_necessarias)], rows with an
    empty process number are dropped ([dropna]), duplicated process numbers
    keep their first row ([drop_duplicates(keep='first')]) and the frame
    becomes a dict [{processo: {coluna: valor}}] ([set_index(...).to_dict
    ('index')]).

    A cell of the sheet is a [cell]: a string, an integer, or the NaN pandas
    reads for an empty cell.  A row of a frame is the dict [gmap pystr cell]
    from column name to cell; a frame is the list of its rows, in order; the
    lookup table is a [gmap cell (gmap pystr cell)]: its keys are cells,
    since pandas keeps an integer process number an [int]. *)

From S2P Require Import Prelude.
From S2P Require Import PyStr.
From S2P Require Import Config.
From stdpp Require Import base list gmap strings countable.
From Stdlib Require Import Ascii String ZArith Lia.

(** ** Cells *)

Inductive cell : Type :=
| CStr (s : pystr)
| CInt (z : Z)
| CNaN.

#[export] Instance cell_eq_dec : EqDecision cell.
Proof. solve_decision. Defined.

Definition cell_code (c : cell) : (pystr + Z) + unit :=
  match c with
  | CStr s => inl (inl s)
  | CInt z => inl (inr z)
  | CNaN => inr tt
  end.

Definition cell_decode (x : (pystr + Z) + unit) : cell :=
  match x with
  | inl (inl s) => CStr s
  | inl (inr z) => CInt z
  | inr _ => CNaN
  end.

#[export] Instance cell_countable : Countable cell.
Proof. apply (inj_countable' cell_code cell_decode). by intros []. Defined.

(** [str(v)] of a cell: the string itself, the decimal digits of an
    integer, ["nan"] for NaN. *)
Definition str_cell (c : cell) : pystr :=
  match c with
  | CStr s => s
  | CInt z => str_int z
  | CNaN => lit "nan"
  end.

(** [pd.isna]: the cells [dropna] removes. *)
Definition is_nan (c : cell) : bool :=
  match c with CNaN => true | _ => false end.

(** A row of a frame: its cells by column name. *)
Abbreviation row := (gmap pystr cell).

(** The lookup table [dados_processos]: process number to the row without
    its process-number column. *)
Abbreviation tabela := (gmap cell (gmap pystr cell)).

(** ** Sheets and workbooks, as [pd.read_excel] sees them *)

(** A worksheet: its header row (the column names) and its data rows.  A
    data row shorter than the header has NaN in the missing cells. *)
Record sheet := mk_sheet {
  cabecalho : list pystr;
  linhas : list (list cell)
}.

(** An [.xlsx] file: its worksheets by name. *)
Abbreviation workbook := (gmap pystr sheet).

(** ** [pd.read_excel(caminho, sheet_name=aba, usecols=colunas)] on a sheet

    The columns of [usecols] are looked up by exact (case-sensitive) name in
    the header; when some are missing pandas raises [ValueError] (returned
    here as [inl] with the missing names).  A column name that appears twice
    in the header is read from its first occurrence (pandas renames the
    later ones [name.1], ...).  A data row shorter than the header reads NaN
    past its end. *)

Fixpoint indice (c : pystr) (hdr : list pystr) : option nat :=
  match hdr with
  | [] => None
  | h :: hdr' => if bool_decide (h = c) then Some 0 else S <$> indice c hdr'
  end.

Definition celula (hdr : list pystr) (linha : list cell) (c : pystr) : cell :=
  match indice c hdr with
  | Some i => default CNaN (linha !! i)
  | None => CNaN
  end.

Definition linha_para_row (hdr : list pystr) (usecols : list pystr) (linha : list cell) : row :=
  list_to_map (map (fun c => (c, celula hdr linha c)) usecols).

Definition colunas_faltando (hdr usecols : list pystr) : list pystr :=
  List.filter (fun c => negb (bool_decide (c ∈ hdr))) usecols.

Definition ler_aba (sh : sheet) (usecols : list pystr) : list pystr + list row :=
  match colunas_faltando (cabecalho sh) usecols with
  | [] => inr (map (linha_para_row (cabecalho sh) usecols) (linhas sh))
  | faltando => inl faltando
  end.

(** ** The process number of a row, and the frame operations *)

(** [row[col]], NaN when the row lacks the column. *)
Definition chave (col : pystr) (r : row) : cell := default CNaN (r !! col).

(** [df.dropna(subset=[col])] *)
Definition dropna (col : pystr) (df : list row) : list row :=
  List.filter (fun r => negb (is_nan (chave col r))) df.

(** [df[col].duplicated().any()] *)
Definition duplicated_any (col : pystr) (df : list row) : bool :=
  negb (bool_decide (NoDup (map (chave col) df))).

(** [df.drop_duplicates(subset=[col], keep='first')]: a row is kept when
    its key was not seen in an earlier row. *)
Fixpoint drop_duplicates_go (col : pystr) (vistos : gset cell) (df : list row) : list row :=
  match df with
  | [] => []
  | r :: df' =>
      if bool_decide (chave col r ∈ vistos) then drop_duplicates_go col vistos df'
      else r :: drop_duplicates_go col ({[chave col r]} ∪ vistos) df'
  end.

Definition drop_duplicates (col : pystr) (df : list row) : list row :=
  drop_duplicates_go col ∅ df.

(** Lines 89-95: deduplicate only when [duplicated().any()]. *)
Definition deduplicar (col : pystr) (df : list row) : list row :=
  if duplicated_any col df then drop_duplicates col df else df.

(** The first row of [df] whose process number is [k], if any. *)
Definition primeira_linha (col : pystr) (k : cell) (df : list row) : option row :=
  snd <$> list_find (fun r => chave col r = k) df.

(** [df.set_index(col).to_dict('index')]: pandas refuses a non-unique
    index ([inl]); otherwise each key maps to its row without [col]. *)
Definition to_dict_index (col : pystr) (df : list row) : unit + tabela :=
  if duplicated_any col df then inl tt
  else inr (list_to_map (map (fun r => (chave col r, delete col r)) df)).

(** Lines 83-99 after the read: [dropna], the deduplication, and the dict. *)
Definition tabela_processos (col : pystr) (df : list row) : unit + tabela :=
  to_dict_index col (deduplicar col (dropna col df)).

(** ** [drop_duplicates] and [to_dict('index')] *)

Lemma primeira_linha_cons col k r df :
  primeira_linha col k (r :: df) =
  if bool_decide (chave col r = k) then Some r else primeira_linha col k df.
Proof.
  unfold primeira_linha. simpl. case_bool_decide; case_decide; try done.
  by destruct (list_find _ df).
Qed.

(** A frame without repeated keys, none of them already seen, is kept
    whole. *)
Lemma drop_duplicates_go_id col vistos df :
  NoDup (map (chave col) df) -> (forall r, r ∈ df -> chave col r ∉ vistos) ->
  drop_duplicates_go col vistos df = df.
Proof.
  revert vistos. induction df as [|r df IH]; intros vistos Hnd Hv; [done|].
  simpl in Hnd. inversion Hnd as [|? ? Hr Hnd']; subst. simpl.
  rewrite bool_decide_eq_false_2 by (apply Hv; set_solver). f_equal.
  apply IH; [done|]. intros r' Hr'. apply not_elem_of_union. split.
  - intros Heq%elem_of_singleton. apply Hr. rewrite <- Heq. by apply list_elem_of_fmap_2.
  - apply Hv. set_solver.
Qed.

(** The rows kept have distinct keys, none seen before. *)
Lemma drop_duplicates_go_nodup col vistos df :
  NoDup (map (chave col) (drop_duplicates_go col vistos df)) /\
  (forall r, r ∈ drop_duplicates_go col vistos df -> chave col r ∉ vistos).
Proof.
  revert vistos. induction df as [|r df IH]; intros vistos; simpl.
  - split; [constructor|set_solver].
  - case_bool_decide as Hin; [apply IH|].
    destruct (IH ({[chave col r]} ∪ vistos)) as [Hnd Hv]. split.
    + simpl. constructor; [|done]. intros (r' & Hk & Hr')%list_elem_of_fmap_1.
      apply (Hv r' Hr'). rewrite <- Hk. set_solver.
    + intros r' [->|Hr']%elem_of_cons; [done|]. specialize (Hv r' Hr'). set_solver.
Qed.

(** What [list_to_map] of the kept rows answers for a key: nothing for a key
    seen before, else the first row with that key. *)
Lemma lookup_drop_duplicates_go col vistos df k :
  (list_to_map (map (fun r => (chave col r, delete col r)) (drop_duplicates_go col vistos df))
     : tabela) !! k =
  if bool_decide (k ∈ vistos) then None else delete col <$> primeira_linha col k df.
Proof.
  revert vistos. induction df as [|r df IH]; intros vistos; simpl.
  - rewrite lookup_empty. by case_bool_decide.
  - rewrite primeira_linha_cons. case_bool_decide as Hin.
    + rewrite IH. case_bool_decide as Hk; [done|].
      rewrite bool_decide_eq_false_2; [done|]. intros <-. done.
    + simpl. rewrite lookup_insert. case_decide as Heq.
      * subst k. rewrite !bool_decide_eq_false_2 by done. rewrite bool_decide_eq_true_2 by done. done.
      * rewrite IH. rewrite (bool_decide_eq_false_2 (chave col r = k)) by done.
        repeat case_bool_decide; set_solver.
Qed.

Lemma is_Some_list_to_map_cols (f : pystr -> cell) (cols : list pystr) x :
  is_Some ((list_to_map (map (fun c => (c, f c)) cols) : row) !! x) <-> x ∈ cols.
Proof.
  induction cols as [|c cols IH]; simpl.
  - rewrite lookup_empty. split; [by intros []|set_solver].
  - rewrite lookup_insert. case_decide; [subst; split; [set_solver|eauto]|].
    rewrite IH. set_solver.
Qed.

Lemma primeira_linha_elem col k df r : primeira_linha col k df = Some r -> r ∈ df.
Proof.
  unfold primeira_linha. destruct (list_find _ df) as [[i r']|] eqn:E; [|done].
  simpl. intros [= <-]. apply list_find_Some in E as (Hi & _ & _).
  by eapply list_elem_of_lookup_2.
Qed.

Lemma dropna_elem col df r : r ∈ dropna col df -> r ∈ df.
Proof. unfold dropna. rewrite !list_elem_of_In, filter_In. tauto. Qed.

(** [deduplicar] is [drop_duplicates] whether or not a key repeats. *)
Lemma deduplicar_go col df : deduplicar col df = drop_duplicates_go col ∅ df.
Proof.
  unfold deduplicar, duplicated_any. case_bool_decide as Hnd; simpl; [|done].
  symmetry. apply drop_duplicates_go_id; [done|set_solver].
Qed.

(** What lines 83-99 build: the first row of each key, after [dropna]. *)
Lemma tabela_processos_lookup col df :
  exists t, tabela_processos col df = inr t /\
    forall k, t !! k = delete col <$> primeira_linha col k (dropna col df).
Proof.
  unfold tabela_processos, to_dict_index. rewrite deduplicar_go.
  destruct (drop_duplicates_go_nodup col ∅ (dropna col df)) as [Hnd _].
  unfold duplicated_any. rewrite bool_decide_eq_true_2 by done. simpl.
  eexists. split; [done|]. intros k. by rewrite lookup_drop_duplicates_go, bool_decide_eq_false_2 by set_solver.
Qed.

Lemma primeira_linha_chave col k df r : primeira_linha col k df = Some r -> chave col r = k.
Proof.
  unfold primeira_linha. destruct (list_find _ df) as [[i r']|] eqn:E; [|done].
  simpl. intros [= <-]. by apply list_find_Some in E as (_ & ? & _).
Qed.

(** Every key of the table is the process number of a row of the frame,
    and is not NaN. *)
Lemma tabela_processos_chave col df t k d :
  tabela_processos col df = inr t -> t !! k = Some d ->
  exists r, r ∈ df /\ chave col r = k /\ is_nan k = false.
Proof.
  intros Ht Hk. destruct (tabela_processos_lookup col df) as (t' & Ht' & Hlk).
  rewrite Ht in Ht'. injection Ht' as <-. rewrite Hlk in Hk.
  destruct (primeira_linha col k (dropna col df)) as [r|] eqn:Er; [|done].
  exists r. split; [by eapply dropna_elem, primeira_linha_elem|].
  pose proof (primeira_linha_chave _ _ _ _ Er) as Hc. split; [done|].
  apply primeira_linha_elem in Er. unfold dropna in Er.
  rewrite list_elem_of_In, filter_In in Er. destruct Er as [_ Hn]. rewrite <- Hc.
  by destruct (is_nan (chave col r)).
Qed.

(** ** Properties of the loader *)

(** C14: the test [df[col].duplicated().any()] of line 89 is an
    optimisation: deduplicating only when a key repeats gives the same frame
    as always calling [drop_duplicates(keep='first')]. *)
Theorem deduplicar_drop_duplicates col df :
  deduplicar col df = drop_duplicates col df.
Proof. apply deduplicar_go. Qed.

(** C8: lines 83-99 never raise, and the table maps each process number to
    the first row, in sheet order, that has it (without its process-number
    column): first occurrence wins, rows with an empty process number are
    gone. *)
Theorem tabela_primeira_ocorrencia col df :
  exists t, tabela_processos col df = inr t /\
    forall k, t !! k = delete col <$> primeira_linha col k (dropna col df).
Proof. apply tabela_processos_lookup. Qed.

(** C16: when the sheet has the four columns and they are distinct, every
    entry of the table has the client, opponent and lawyer columns, so the
    [.get] defaults of lines 133-135 are never used. *)
Theorem tabela_campos_presentes sh p c a adv df t k d :
  NoDup [p; c; a; adv] -> ler_aba sh [p; c; a; adv] = inr df ->
  tabela_processos p df = inr t -> t !! k = Some d ->
  is_Some (d !! c) /\ is_Some (d !! a) /\ is_Some (d !! adv).
Proof.
  intros Hnd Hler Ht Hk. destruct (tabela_processos_lookup p df) as (t' & Ht' & Hlk).
  rewrite Ht in Ht'. injection Ht' as <-. rewrite Hlk in Hk.
  destruct (primeira_linha p k (dropna p df)) as [r|] eqn:Er; [|done]. injection Hk as <-.
  apply primeira_linha_elem, dropna_elem in Er.
  unfold ler_aba in Hler. destruct (colunas_faltando _ _); [|done]. injection Hler as <-.
  apply list_elem_of_fmap_1 in Er as (linha & -> & _).
  inversion Hnd as [|? ? Hp _]; subst.
  rewrite !lookup_delete_ne by set_solver. unfold linha_para_row.
  rewrite !is_Some_list_to_map_cols. set_solver.
Qed.

(** ** Witness: a sheet with the four columns and one short row *)

Lemma tabela_campos_presentes_witness :
  is_Some ((delete (lit "P") (linha_para_row [lit "P"; lit "C"; lit "A"; lit "D"]
              [lit "P"; lit "C"; lit "A"; lit "D"] [CStr (lit "1"); CStr (lit "x")])) !! lit "C") /\
  is_Some ((delete (lit "P") (linha_para_row [lit "P"; lit "C"; lit "A"; lit "D"]
              [lit "P"; lit "C"; lit "A"; lit "D"] [CStr (lit "1"); CStr (lit "x")])) !! lit "A") /\
  is_Some ((delete (lit "P") (linha_para_row [lit "P"; lit "C"; lit "A"; lit "D"]
              [lit "P"; lit "C"; lit "A"; lit "D"] [CStr (lit "1"); CStr (lit "x")])) !! lit "D").
Proof.
  refine (tabela_campos_presentes
    (mk_sheet [lit "P"; lit "C"; lit "A"; lit "D"] [[CStr (lit "1"); CStr (lit "x")]])
    (lit "P") (lit "C") (lit "A") (lit "D")
    [linha_para_row [lit "P"; lit "C"; lit "A"; lit "D"] [lit "P"; lit "C"; lit "A"; lit "D"]
       [CStr (lit "1"); CStr (lit "x")]]
    (list_to_map [(CStr (lit "1"),
       delete (lit "P") (linha_para_row [lit "P"; lit "C"; lit "A"; lit "D"]
         [lit "P"; lit "C"; lit "A"; lit "D"] [CStr (lit "1"); CStr (lit "x")]))])
    (CStr (lit "1")) _ _ _ _ _).
  - apply (bool_decide_unpack _). vm_compute. reflexivity.
  - vm_compute. reflexivity.
  - vm_compute. reflexivity.
  - vm_compute. reflexivity.
Defined.
