(* ===== verification/Naming.v ===== *)
(** * The filename synthesizer

    Lines 129-147 of [src/projeto_renomear_arquivos.py]: the three fields of
    the matched row ([campo], line 133-135: [str(dados.get(col, padrao))
    .strip()]), the f-string of line 138 ([nome_bruto]), the removal of the
    nine characters Windows refuses in a file name (backslash, slash, bar,
    colon, star, question mark, double quote, less, greater) one after the other (lines 142-144,
    [limpar_invalidos]) and the collapse of whitespace of line 147
    ([colapsar_espacos]); [novo_nome_arquivo] composes them.

    Theorems: the cleaned name has none of the nine characters and normalized
    spacing; the character loop is the one-pass filter; the cleaning keeps
    every other non-space character in order; the new name always differs
    from the file's name (it has two more dashes). *)

From S2P Require Import Prelude.
From S2P Require Import PyStr.
From S2P Require Import Config.
From S2P Require Import Table.
From stdpp Require Import base list gmap strings.
From Stdlib Require Import Ascii String ZArith Lia.

(** ** Definitions *)

(** [str(dados.get(col, padrao)).strip()] *)
Definition campo (dados : row) (col padrao : pystr) : pystr :=
  strip (match dados !! col with
         | Some v => str_cell v
         | None => padrao
         end).

Definition ADVOGADO_NAO_INFO : pystr := lit "ADVOGADO_NAO_INFO".
Definition CLIENTE_NAO_INFO : pystr := lit "CLIENTE_NAO_INFO".
Definition ADVERSO_NAO_INFO : pystr := lit "ADVERSO_NAO_INFO".

(** [f"{numero} - {advogado} - {cliente} X {adversa}{extensao}"] *)
Definition nome_bruto (numero advogado cliente adversa extensao : pystr) : pystr :=
  numero ++ lit " - " ++ advogado ++ lit " - " ++ cliente ++ lit " X " ++
  adversa ++ extensao.

(** The raw string of line 142, in its order: backslash, slash, bar, colon,
    star, question mark, double quote (U+0022, written by its code), less,
    greater. *)
Definition caracteres_invalidos : list ascii :=
  ["\"; "/"; "|"; ":"; "*"; "?"; "034"; "<"; ">"]%char.

(** [for char in caracteres_invalidos: novo = novo.replace(char, '')] *)
Definition limpar_invalidos (nome : pystr) : pystr :=
  fold_left replace_empty caracteres_invalidos nome.

(** [' '.join(novo.split()).strip()] *)
Definition colapsar_espacos (nome : pystr) : pystr :=
  strip (join_with [" "%char] (split_ws nome)).

(** The new name of the file whose stripped stem is [numero] and whose
    extension is [extensao], for the row [dados] of the table. *)
Definition novo_nome_arquivo (cfg : config) (numero : pystr) (dados : row)
    (extensao : pystr) : pystr :=
  let nome_advogado := campo dados (coluna_advogado_planilha cfg) ADVOGADO_NAO_INFO in
  let nome_cliente := campo dados (coluna_cliente_planilha cfg) CLIENTE_NAO_INFO in
  let parte_adversa := campo dados (coluna_parte_adversa_planilha cfg) ADVERSO_NAO_INFO in
  colapsar_espacos (limpar_invalidos
    (nome_bruto numero nome_advogado nome_cliente parte_adversa extensao)).

(** The characters section 4.3 of the specification forbids in a file
    name, in the order it lists them; a name is acceptable when all its
    characters are [valido]. *)
Definition proibidos : list ascii := ["\"; "/"; "|"; ":"; "*"; "?"; "034"; "<"; ">"]%char.

Definition valido (c : ascii) : bool := negb (bool_decide (c ∈ proibidos)).

(** Number of dashes of a string. *)
Definition tracos (s : pystr) : nat := List.length (List.filter (fun c => Ascii.eqb c "-") s).

(** ** The character loop is one filter *)

(** The raw string of line 142 holds exactly the characters the
    specification forbids. *)
Lemma invalidos_proibidos c : c ∈ caracteres_invalidos <-> c ∈ proibidos.
Proof. rewrite !list_elem_of_In. simpl. tauto. Qed.

Lemma limpar_invalidos_proibidos (nome : pystr) :
  limpar_invalidos nome = List.filter valido nome.
Proof.
  unfold limpar_invalidos. rewrite fold_replace_empty. apply filter_ext. intros c.
  unfold valido. by rewrite (bool_decide_ext _ _ (invalidos_proibidos c)).
Qed.

(** C15: the nine [replace] calls of lines 143-144 remove exactly the characters
    of [caracteres_invalidos], which are those the specification forbids,
    and keep the others in order. *)
Theorem limpar_invalidos_filtro (nome : pystr) :
  limpar_invalidos nome = List.filter valido nome.
Proof. apply limpar_invalidos_proibidos. Qed.

(** ** Whitespace collapse *)

(** The final [.strip()] of line 147 never changes anything. *)
Lemma colapsar_sem_strip s :
  colapsar_espacos s = join_with [" "%char] (split_ws s).
Proof.
  unfold colapsar_espacos. destruct (split_ws s) as [|w ws] eqn:E; [done|].
  destruct (join_words_shape (w :: ws)) as ([x [Hx Hx']] & [y [Hy Hy']] & _);
    [rewrite <- E; apply split_ws_words|done|].
  apply strip_clean; [by eapply starts_clean_head|by eapply ends_clean_last].
Qed.

Lemma colapsar_normalizado s : normalized (colapsar_espacos s) = true.
Proof.
  rewrite colapsar_sem_strip. destruct (split_ws s) as [|w ws] eqn:E; [done|].
  destruct (join_words_shape (w :: ws)) as ([x [Hx Hx']] & [y [Hy Hy']] & Hrun & Hpl);
    [rewrite <- E; apply split_ws_words|done|].
  unfold normalized. rewrite (starts_clean_head _ x), (ends_clean_last _ y), Hrun, Hpl by done.
  done.
Qed.

Lemma valido_not_space c : valido c = true -> c ∈ proibidos -> False.
Proof. unfold valido. case_bool_decide; done. Qed.

Lemma invalido_not_space c : c ∈ proibidos -> not_space c = true.
Proof. intros H. repeat (inversion H as [|? ? ? H']; subst; [done|]; clear H; rename H' into H). inversion H. Qed.

Lemma space_valido c : not_space c = false -> valido c = true.
Proof.
  unfold not_space, is_space. case_bool_decide as H; [|done]. intros _.
  repeat (inversion H as [|? ? ? H']; subst; [done|]; clear H; rename H' into H).
  inversion H.
Qed.

(** Collapsing keeps each non-space character. *)
Lemma In_colapsar c s : In c (colapsar_espacos s) -> not_space c = true -> In c s.
Proof.
  intros Hc Hs. assert (H : In c (List.filter not_space s)).
  { unfold colapsar_espacos in Hc. rewrite <- (filter_space_free not_space s) by done.
    by apply filter_In. }
  by apply filter_In in H as [? _].
Qed.

(** ** Dashes *)

Lemma tracos_app a b : tracos (a ++ b) = tracos a + tracos b.
Proof. unfold tracos. by rewrite List.filter_app, length_app. Qed.

Lemma tracos_filter (p : ascii -> bool) s : p "-"%char = true -> tracos (List.filter p s) = tracos s.
Proof.
  intros Hp. unfold tracos. f_equal. apply filter_filter_weaker.
  intros c Hc. by destruct (Ascii.eqb_spec c "-"); subst.
Qed.

Lemma tracos_strip s : tracos (strip s) = tracos s.
Proof.
  rewrite <- (tracos_filter not_space (strip s)), <- (tracos_filter not_space s) by done.
  by rewrite filter_strip.
Qed.

Lemma tracos_colapsar s : tracos (colapsar_espacos s) = tracos s.
Proof.
  unfold tracos, colapsar_espacos. f_equal. apply filter_space_free.
  intros c Hc. by destruct (Ascii.eqb_spec c "-"); subst.
Qed.

Lemma tracos_novo_nome cfg numero dados extensao :
  tracos (novo_nome_arquivo cfg numero dados extensao) =
  tracos numero + 2
  + tracos (campo dados (coluna_advogado_planilha cfg) ADVOGADO_NAO_INFO)
  + tracos (campo dados (coluna_cliente_planilha cfg) CLIENTE_NAO_INFO)
  + tracos (campo dados (coluna_parte_adversa_planilha cfg) ADVERSO_NAO_INFO)
  + tracos extensao.
Proof.
  unfold novo_nome_arquivo. rewrite tracos_colapsar, limpar_invalidos_proibidos, tracos_filter by done.
  unfold nome_bruto. rewrite !tracos_app. cbn. lia.
Qed.

(** The name synthesized for a file has at least two dashes more than the
    file's name. *)
Lemma tracos_novo_nome_arquivo cfg nome dados :
  tracos nome + 2 <=
  tracos (novo_nome_arquivo cfg (strip (splitext nome).1) dados (splitext nome).2).
Proof.
  pose proof (splitext_app nome) as Happ.
  destruct (splitext nome) as [base ext]. simpl in *.
  rewrite tracos_novo_nome, tracos_strip, <- Happ, tracos_app. lia.
Qed.

(** ** Properties of the synthesized name *)

(** C5: every character of a synthesized name is allowed in a Windows file
    name: none of the nine characters the specification forbids survives. *)
Theorem novo_nome_sem_invalidos cfg numero dados extensao :
  Forall (fun c => valido c = true) (novo_nome_arquivo cfg numero dados extensao).
Proof.
  apply List.Forall_forall. intros c Hc.
  destruct (not_space c) eqn:Hs; [|by apply space_valido].
  apply In_colapsar in Hc; [|done].
  rewrite limpar_invalidos_proibidos in Hc. by apply filter_In in Hc as [_ ?].
Qed.

(** C6: a synthesized name neither starts nor ends with whitespace, has no two
    whitespace characters in a row, and its only whitespace is the plain
    space. *)
Theorem novo_nome_normalizado cfg numero dados extensao :
  normalized (novo_nome_arquivo cfg numero dados extensao) = true.
Proof. apply colapsar_normalizado. Qed.

(** C22: the cleaning of lines 142-147 keeps, in order, exactly the
    characters of the f-string that are neither whitespace nor one of the
    nine: the non-space characters of the new name are those. *)
Theorem novo_nome_caracteres cfg numero dados extensao :
  let nome_advogado := campo dados (coluna_advogado_planilha cfg) ADVOGADO_NAO_INFO in
  let nome_cliente := campo dados (coluna_cliente_planilha cfg) CLIENTE_NAO_INFO in
  let parte_adversa := campo dados (coluna_parte_adversa_planilha cfg) ADVERSO_NAO_INFO in
  List.filter not_space (novo_nome_arquivo cfg numero dados extensao) =
  List.filter (fun c => valido c && not_space c)
    (nome_bruto numero nome_advogado nome_cliente parte_adversa extensao).
Proof.
  cbv zeta. unfold novo_nome_arquivo, colapsar_espacos.
  by rewrite filter_space_free, limpar_invalidos_proibidos, filter_filter_andb.
Qed.

(** C9: the synthesized name of a file is never the file's own name: it has
    two dashes more than the name it was built from (the two [" - "] of the
    f-string; dashes survive the cleaning and [strip] removes none).  So the
    [caminho_arquivo_antigo == caminho_arquivo_novo] branch of line 151 can
    never be taken. *)
Theorem novo_nome_difere cfg nome dados :
  novo_nome_arquivo cfg (strip (splitext nome).1) dados (splitext nome).2 <> nome.
Proof.
  intros Heq. pose proof (tracos_novo_nome_arquivo cfg nome dados) as H.
  rewrite Heq in H. lia.
Qed.

