(* ===== verification/World.v ===== *)
(** * The world the program acts on: file system, clock, console

    The Python program reaches the outside world through [os.path.exists],
    [os.path.isdir], [os.path.isfile], [os.listdir], [os.rename],
    [time.sleep], [print] and [pd.read_excel].  The model keeps:
    - [w_fs]: every existing path, mapped to a directory or a file (a file
      that is an Excel workbook carries its sheets);
    - [w_ocupado]: whether another process holds a path open at a given
      second, which makes Windows refuse to rename it (the reason the
      program retries);
    - [w_relogio]: the time, in seconds, advanced by [time.sleep];
    - [w_chamadas]: the trace of the [os.rename] and [time.sleep] calls,
      most recent first;
    - [w_saida]: the lines printed, most recent first.
    [os.rename] follows Windows ([MoveFileExW] without
    [MOVEFILE_REPLACE_EXISTING]): it fails when the source is missing or
    held open, or when the target exists.  Paths are compared as strings:
    Windows' case-insensitivity and path normalization are not modelled. *)

From S2P Require Import Prelude.
From S2P Require Import PyStr.
From S2P Require Import Table.
From stdpp Require Import base list gmap strings.
From Stdlib Require Import Ascii ZArith Lia.

Inductive node : Type :=
| NDir
| NFile (planilha : option workbook).

(** The [OSError]s [os.rename] raises: [FileNotFoundError],
    [FileExistsError], [PermissionError]. *)
Inductive os_error : Type := ENOENT | EEXIST | EACCES.

(** The [ValueError]s of the program: a missing sheet, columns of [usecols]
    missing from the header, a file that is not a workbook (pandas: Excel
    file format cannot be determined), a negative [time.sleep], a
    non-unique index in [to_dict('index')]. *)
Inductive value_error : Type :=
| VSheetNotFound (aba : pystr)
| VUsecolsMismatch (faltando : list pystr)
| VFormatoDesconhecido
| VNegativeSleep
| VIndexNotUnique.

(** The exceptions the program can raise ([ExcEOF] is the [EOFError] of
    [input()] in the [__main__] block). *)
Inductive exc : Type :=
| ExcOS (e : os_error)
| ExcFileNotFound (caminho : pystr)
| ExcNotADirectory (caminho : pystr)
| ExcValue (v : value_error)
| ExcEOF.

Inductive chamada : Type :=
| CRename (src dst : pystr) (falha : option os_error)
| CSleep (segundos : Z).

(** The lines the program prints, by the line of the source that prints
    them. *)
Inductive mensagem : Type :=
| MsgIgnorando (nome : pystr)                            (* line 152 *)
| MsgRenomeado (nome novo : pystr)                       (* line 160 *)
| MsgAvisoTentativa (nome : pystr) (e : os_error) (atraso : Z)  (* line 166 *)
| MsgErroFinal (nome : pystr) (max : Z) (e : os_error)   (* line 169 *)
| MsgNaoEncontrado (nome : pystr)                        (* line 174 *)
| MsgAvisoSemLinhas                                      (* line 85 *)
| MsgAvisoSemArquivos                                    (* line 113 *)
| MsgResumo (total sucessos nao_encontrados erros : nat) (* lines 177-181 *)
| MsgErroFatal (e : exc)                                 (* lines 183-202 *)
| MsgInicio (planilha aba pasta : pystr)                 (* lines 53-57 *)
| MsgLendo (planilha aba : pystr)                        (* line 74 *)
| MsgCarregada (linhas : nat)                            (* line 80 *)
| MsgAvisoDuplicatas                                     (* line 90 *)
| MsgAposDeduplicar (linhas : nat)                       (* line 93 *)
| MsgDicionario (processos : nat)                        (* line 100 *)
| MsgEncontrados (arquivos : nat) (pasta : pystr)        (* line 110 *)
| MsgIniciando                                           (* line 121 *)
| MsgCaminhoInvalido (caminho : pystr)                   (* line 253 *)
| MsgPressioneEnter.                                     (* line 268 *)

Record world := mk_world {
  w_fs : gmap pystr node;
  w_ocupado : pystr -> Z -> bool;
  w_relogio : Z;
  w_chamadas : list chamada;
  w_saida : list mensagem
}.

Abbreviation PyM A := (stexc world exc A).

(** ** Observations *)

Definition path_exists (w : world) (p : pystr) : bool := bool_decide (is_Some (w_fs w !! p)).

Definition path_isdir (w : world) (p : pystr) : bool :=
  match w_fs w !! p with Some NDir => true | _ => false end.

Definition path_isfile (w : world) (p : pystr) : bool :=
  match w_fs w !! p with Some (NFile _) => true | _ => false end.

(** The name under which [caminho] appears in [os.listdir(pasta)]: what
    follows [pasta] and a separator, when it has no separator itself. *)
Definition nome_em (pasta caminho : pystr) : option pystr :=
  let pre := path_join pasta [] in
  if decide (take (length pre) caminho = pre) then
    let n := drop (length pre) caminho in
    if bool_decide (n <> []) && forallb (fun c => negb (is_sep c)) n then Some n else None
  else None.

(** [os.listdir(pasta)], for an existing folder.  Python lists the entries in
    an order the file system chooses; the model lists them in the order of
    the map. *)
Definition listdir (w : world) (pasta : pystr) : list pystr :=
  omap (fun pn => nome_em pasta pn.1) (map_to_list (w_fs w)).

(** ** Actions *)

Definition print (m : mensagem) : PyM unit :=
  modify (fun w => {| w_fs := w_fs w; w_ocupado := w_ocupado w; w_relogio := w_relogio w;
                      w_chamadas := w_chamadas w; w_saida := m :: w_saida w |}).

Definition registrar (c : chamada) (fs : gmap pystr node) (relogio : Z) (w : world) : world :=
  {| w_fs := fs; w_ocupado := w_ocupado w; w_relogio := relogio;
     w_chamadas := c :: w_chamadas w; w_saida := w_saida w |}.

(** Why [os.rename(src, dst)] fails on Windows, if it does. *)
Definition rename_falha (w : world) (src dst : pystr) : option os_error :=
  match w_fs w !! src with
  | None => Some ENOENT
  | Some _ =>
      if w_ocupado w src (w_relogio w) then Some EACCES
      else if decide (src = dst) then None
      else match w_fs w !! dst with
           | Some _ => Some EEXIST
           | None => None
           end
  end.

Definition mover (fs : gmap pystr node) (src dst : pystr) : gmap pystr node :=
  match fs !! src with
  | Some n => <[dst := n]> (delete src fs)
  | None => fs
  end.

(** [os.rename(src, dst)] *)
Definition os_rename (src dst : pystr) : PyM unit := fun w =>
  match rename_falha w src dst with
  | Some e => (inl (ExcOS e), registrar (CRename src dst (Some e)) (w_fs w) (w_relogio w) w)
  | None => (inr tt, registrar (CRename src dst None) (mover (w_fs w) src dst) (w_relogio w) w)
  end.

(** [time.sleep(segundos)]: a negative length raises [ValueError]. *)
Definition time_sleep (segundos : Z) : PyM unit := fun w =>
  if Z.ltb segundos 0 then (inl (ExcValue VNegativeSleep), w)
  else (inr tt, registrar (CSleep segundos) (w_fs w) (w_relogio w + segundos) w).

(** [os.path.exists(p)], [os.path.isdir(p)] *)
Definition os_path_exists (p : pystr) : PyM bool := fun w => (inr (path_exists w p), w).
Definition os_path_isdir (p : pystr) : PyM bool := fun w => (inr (path_isdir w p), w).

(** [[f for f in os.listdir(pasta) if os.path.isfile(os.path.join(pasta, f))]] *)
Definition arquivos_da_pasta (pasta : pystr) : PyM (list pystr) := fun w =>
  (inr (List.filter (fun f => path_isfile w (path_join pasta f)) (listdir w pasta)), w).

(** [pd.read_excel(caminho, sheet_name=aba, usecols=usecols)]: the sheet
    is looked up first, then the columns.  A file that is not a workbook
    raises [ValueError] (the format cannot be determined); a directory
    cannot be opened, which Windows answers with [PermissionError]. *)
Definition pd_read_excel (caminho aba : pystr) (usecols : list pystr) : PyM (list row) := fun w =>
  match w_fs w !! caminho with
  | Some (NFile (Some wb)) =>
      match wb !! aba with
      | Some sh =>
          match ler_aba sh usecols with
          | inr df => (inr df, w)
          | inl faltando => (inl (ExcValue (VUsecolsMismatch faltando)), w)
          end
      | None => (inl (ExcValue (VSheetNotFound aba)), w)
      end
  | Some (NFile None) => (inl (ExcValue VFormatoDesconhecido), w)
  | Some NDir => (inl (ExcOS EACCES), w)
  | None => (inl (ExcFileNotFound caminho), w)
  end.

(** [input()]: the next line the user types; [EOFError] when there is
    none. *)
Definition input (entradas : list pystr) : PyM (pystr * list pystr) := fun w =>
  match entradas with
  | [] => (inl ExcEOF, w)
  | e :: resto => (inr (e, resto), w)
  end.

(** ** Effects of a computation

    [preserva_fs m]: [m] leaves the file system as it found it (it prints,
    reads, sleeps or raises).  [levanta_so P m]: every exception [m] raises
    satisfies [P]. *)

Definition preserva_fs {A} (m : PyM A) : Prop := forall w, w_fs (snd (m w)) = w_fs w.

(** [preserva_chamadas m]: [m] calls neither [os.rename] nor [time.sleep]. *)
Definition preserva_chamadas {A} (m : PyM A) : Prop :=
  forall w, w_chamadas (snd (m w)) = w_chamadas w.

Definition levanta_so {A} (P : exc -> Prop) (m : PyM A) : Prop :=
  forall w e w', m w = (inl e, w') -> P e.

(** ** Facts on the actions *)

Lemma os_rename_falha w src dst e :
  rename_falha w src dst = Some e ->
  os_rename src dst w =
  (inl (ExcOS e), registrar (CRename src dst (Some e)) (w_fs w) (w_relogio w) w).
Proof. unfold os_rename. by intros ->. Qed.

Lemma os_rename_ok w src dst :
  rename_falha w src dst = None ->
  os_rename src dst w =
  (inr tt, registrar (CRename src dst None) (mover (w_fs w) src dst) (w_relogio w) w).
Proof. unfold os_rename. by intros ->. Qed.

Lemma time_sleep_ok w d :
  (0 <= d)%Z ->
  time_sleep d w = (inr tt, registrar (CSleep d) (w_fs w) (w_relogio w + d) w).
Proof. unfold time_sleep. intros Hd. destruct (Z.ltb_spec d 0); [lia|done]. Qed.

Lemma time_sleep_neg w d :
  (d < 0)%Z -> time_sleep d w = (inl (ExcValue VNegativeSleep), w).
Proof. unfold time_sleep. intros Hd. destruct (Z.ltb_spec d 0); [done|lia]. Qed.

(** A file that exists and is held open at the current second cannot be
    renamed: Windows answers [PermissionError]. *)
Lemma rename_falha_ocupado w src dst :
  is_Some (w_fs w !! src) -> w_ocupado w src (w_relogio w) = true ->
  rename_falha w src dst = Some EACCES.
Proof. unfold rename_falha. intros [n ->] ->. done. Qed.

(** A file that exists, is free, and whose new name is free is renamed. *)
Lemma rename_falha_livre w src dst :
  is_Some (w_fs w !! src) -> w_ocupado w src (w_relogio w) = false ->
  w_fs w !! dst = None ->
  rename_falha w src dst = None.
Proof. unfold rename_falha. intros [n ->] -> ->. by case_decide. Qed.

(** A rename that succeeds found its source, and its target was free or
    was the source itself. *)
Lemma rename_falha_none w src dst :
  rename_falha w src dst = None ->
  exists n, w_fs w !! src = Some n /\ (src = dst \/ w_fs w !! dst = None).
Proof.
  unfold rename_falha. destruct (w_fs w !! src) as [n|]; [|done].
  case_match; [done|]. case_decide; [eauto|]. case_match; [done|eauto].
Qed.

(** The effect of a rename that succeeds: the source existed, the target
    was free or was the source, and the entry moved. *)
Definition movido (fs : gmap pystr node) (src dst : pystr) (fs' : gmap pystr node) : Prop :=
  exists n, fs !! src = Some n /\ (src = dst \/ fs !! dst = None) /\ fs' = mover fs src dst.

Lemma rename_falha_movido w src dst :
  rename_falha w src dst = None -> movido (w_fs w) src dst (mover (w_fs w) src dst).
Proof. intros (n & ? & ?)%rename_falha_none. by exists n. Qed.

(** The observations read the file system only. *)
Lemma path_isdir_fs w w' p : w_fs w = w_fs w' -> path_isdir w p = path_isdir w' p.
Proof. unfold path_isdir. by intros ->. Qed.

Lemma path_exists_fs w w' p : w_fs w = w_fs w' -> path_exists w p = path_exists w' p.
Proof. unfold path_exists. by intros ->. Qed.

Lemma path_isdir_exists w p : path_isdir w p = true -> path_exists w p = true.
Proof. unfold path_isdir, path_exists. case_match; [intros _; by apply bool_decide_eq_true_2|done]. Qed.

(** ** The effect combinators *)

Create HintDb efeitos.

Lemma preserva_ret {A} (a : A) : preserva_fs (ret a).
Proof. done. Qed.
Lemma preserva_raise {A} e : preserva_fs (A := A) (raise e).
Proof. done. Qed.
Lemma preserva_print m : preserva_fs (print m).
Proof. done. Qed.
Lemma preserva_os_path_exists p : preserva_fs (os_path_exists p).
Proof. done. Qed.
Lemma preserva_os_path_isdir p : preserva_fs (os_path_isdir p).
Proof. done. Qed.
Lemma preserva_arquivos_da_pasta p : preserva_fs (arquivos_da_pasta p).
Proof. done. Qed.
Lemma preserva_pd_read_excel c a u : preserva_fs (pd_read_excel c a u).
Proof. intros w. unfold pd_read_excel. repeat case_match; done. Qed.
Lemma preserva_input l : preserva_fs (input l).
Proof. intros w. unfold input. by destruct l. Qed.
Lemma preserva_bind {A B} (m : PyM A) (k : A -> PyM B) :
  preserva_fs m -> (forall a, preserva_fs (k a)) -> preserva_fs (bind m k).
Proof.
  intros Hm Hk w. unfold bind. specialize (Hm w).
  destruct (m w) as [[e|a] w']; simpl in *; [done|]. by rewrite Hk.
Qed.

Lemma chamadas_ret {A} (a : A) : preserva_chamadas (ret a).
Proof. done. Qed.
Lemma chamadas_raise {A} e : preserva_chamadas (A := A) (raise e).
Proof. done. Qed.
Lemma chamadas_print m : preserva_chamadas (print m).
Proof. done. Qed.
Lemma chamadas_os_path_exists p : preserva_chamadas (os_path_exists p).
Proof. done. Qed.
Lemma chamadas_pd_read_excel c a u : preserva_chamadas (pd_read_excel c a u).
Proof. intros w. unfold pd_read_excel. repeat case_match; done. Qed.
Lemma chamadas_bind {A B} (m : PyM A) (k : A -> PyM B) :
  preserva_chamadas m -> (forall a, preserva_chamadas (k a)) -> preserva_chamadas (bind m k).
Proof.
  intros Hm Hk w. unfold bind. specialize (Hm w).
  destruct (m w) as [[e|a] w']; simpl in *; [done|]. by rewrite Hk.
Qed.

Lemma levanta_ret {A} P (a : A) : levanta_so P (ret a).
Proof. by intros w e w' [=]. Qed.
Lemma levanta_raise {A} (P : exc -> Prop) e : P e -> levanta_so (A := A) P (raise e).
Proof. by intros HP w e' w' [= <- _]. Qed.
Lemma levanta_print P m : levanta_so P (print m).
Proof. by intros w e w' [=]. Qed.
Lemma levanta_os_path_exists P p : levanta_so P (os_path_exists p).
Proof. by intros w e w' [=]. Qed.
Lemma levanta_os_path_isdir P p : levanta_so P (os_path_isdir p).
Proof. by intros w e w' [=]. Qed.
Lemma levanta_arquivos_da_pasta P p : levanta_so P (arquivos_da_pasta p).
Proof. by intros w e w' [=]. Qed.
Lemma levanta_bind {A B} P (m : PyM A) (k : A -> PyM B) :
  levanta_so P m -> (forall a, levanta_so P (k a)) -> levanta_so P (bind m k).
Proof.
  intros Hm Hk w e w'. unfold bind. destruct (m w) as [[e0|a] w0] eqn:E.
  - intros [= <- _]. by eapply Hm.
  - by apply Hk.
Qed.
Lemma levanta_mono {A} (P Q : exc -> Prop) (m : PyM A) :
  (forall e, P e -> Q e) -> levanta_so P m -> levanta_so Q m.
Proof. intros HPQ Hm w e w' E. by eapply HPQ, Hm. Qed.

(** [pd.read_excel] raises [FileNotFoundError], [ValueError] or the
    [PermissionError] of a directory, never [NotADirectoryError] or
    [EOFError]. *)
Lemma levanta_pd_read_excel c a u :
  levanta_so (fun e => match e with
                       | ExcFileNotFound _ | ExcValue _ | ExcOS EACCES => True
                       | _ => False end) (pd_read_excel c a u).
Proof. intros w e w'. unfold pd_read_excel. repeat case_match; intros [=]; subst; done. Qed.

Lemma levanta_catch {A} (P Q : exc -> Prop) (m : PyM A) h :
  levanta_so Q m -> (forall e, Q e -> levanta_so P (h e)) -> levanta_so P (catch m h).
Proof.
  intros Hm Hh w e w'. unfold catch. destruct (m w) as [[e0|a] w0] eqn:E.
  - apply (Hh e0 (Hm _ _ _ E)).
  - by intros [=].
Qed.

(** [os.rename] raises only [OSError]s; [time.sleep] only the
    [ValueError] of a negative length. *)
Lemma levanta_os_rename src dst : levanta_so (fun e => exists oe, e = ExcOS oe) (os_rename src dst).
Proof. intros w e w'. unfold os_rename. case_match; intros [= <- _]; eauto. Qed.

Lemma levanta_time_sleep d : levanta_so (fun e => e = ExcValue VNegativeSleep) (time_sleep d).
Proof. intros w e w'. unfold time_sleep. case_match; by intros [= <- _]. Qed.

#[export] Hint Resolve preserva_ret preserva_raise preserva_print preserva_os_path_exists
  preserva_os_path_isdir preserva_arquivos_da_pasta preserva_pd_read_excel preserva_input
  levanta_ret levanta_print levanta_os_path_exists levanta_os_path_isdir
  levanta_arquivos_da_pasta chamadas_ret chamadas_raise chamadas_print chamadas_os_path_exists
  chamadas_pd_read_excel : efeitos.

(** Decompose a computation into its actions, case-splitting on the tests
    between them. *)
Ltac efeitos :=
  repeat first
    [ progress auto with efeitos
    | match goal with
      | |- preserva_fs (bind _ _) => apply preserva_bind; [|intros ?]
      | |- levanta_so _ (bind _ _) => apply levanta_bind; [|intros ?]
      | |- preserva_chamadas (bind _ _) => apply chamadas_bind; [|intros ?]
      | |- levanta_so _ (raise _) => apply levanta_raise
      end
    | match goal with
      | |- preserva_fs (if ?b then _ else _) => destruct b
      | |- levanta_so _ (if ?b then _ else _) => destruct b
      | |- preserva_chamadas (if ?b then _ else _) => destruct b
      | |- preserva_chamadas (match ?x with _ => _ end) => destruct x
      | |- preserva_fs (match ?x with _ => _ end) => destruct x
      | |- levanta_so _ (match ?x with _ => _ end) => destruct x
      end ].
