(* ===== verification/Retry.v ===== *)
(** * The rename with retries (Rename Executor, lines 156-172)

    [laco_tentativas] is the [for tentativa in range(1, max_tentativas + 1)]
    loop of lines 157-170: an [os.rename] inside [try]; on success a message,
    [sucessos += 1] and [break]; on [OSError] a warning and [time.sleep]
    before any attempt but the last, an error message and [erros += 1] at the
    last.  [tentar_renomear] adds the check of lines 171-172, which counts
    one more error when the file was not renamed.

    Theorems: the number of [os.rename] calls lies between 1 and
    [max_tentativas]; a file held open for the whole loop is tried exactly
    [max_tentativas] times with [max_tentativas - 1] sleeps, is left in
    place, and adds 2 to [erros] (lines 170 and 172 both count it); a file
    released before the last attempt is renamed at the first attempt after
    its release; a negative delay turns the first failed attempt into a
    [ValueError] that leaves the loop. *)

From S2P Require Import Prelude.
From S2P Require Import PyStr.
From S2P Require Import Table.
From S2P Require Import World.
From stdpp Require Import base list gmap strings.
From Stdlib Require Import Ascii ZArith Lia.

Local Open Scope py_scope.

(** The counters of lines 117-119. *)
Record contadores := mk_contadores {
  sucessos : nat;
  nao_encontrados : nat;
  erros : nat
}.

Definition mais_sucesso (c : contadores) : contadores :=
  mk_contadores (S (sucessos c)) (nao_encontrados c) (erros c).
Definition mais_nao_encontrado (c : contadores) : contadores :=
  mk_contadores (sucessos c) (S (nao_encontrados c)) (erros c).
Definition mais_erro (c : contadores) : contadores :=
  mk_contadores (sucessos c) (nao_encontrados c) (S (erros c)).

(** [range(1, max_tentativas + 1)]: empty when [max_tentativas < 1]. *)
Definition tentativas (max_tentativas : Z) : list Z :=
  map (fun i => (Z.of_nat i + 1)%Z) (seq 0 (Z.to_nat max_tentativas)).

Section Laco.
  (** The parameters the loop reads: the two paths, the two names it
      prints, the number of attempts and the delay. *)
Variables (antigo novo nome_antigo novo_nome : pystr).
Variables (max_tentativas atraso : Z).

  (** Lines 157-170. *)
Fixpoint laco_tentativas (ts : list Z) (c : contadores) : PyM (bool * contadores) :=
    match ts with
    | [] => ret (false, c)
    | tentativa :: ts' =>
        catch
          (os_rename antigo novo ;;;
           print (MsgRenomeado nome_antigo novo_nome) ;;;
           ret (true, mais_sucesso c))
          (fun ex =>
             match ex with
             | ExcOS e =>
                 if Z.ltb tentativa max_tentativas then
                   print (MsgAvisoTentativa nome_antigo e atraso) ;;;
                   time_sleep atraso ;;;
                   laco_tentativas ts' c
                 else
                   print (MsgErroFinal nome_antigo max_tentativas e) ;;;
                   laco_tentativas ts' (mais_erro c)
             | _ => raise ex
             end)
    end.

  (** Lines 156-172. *)
Definition tentar_renomear (c : contadores) : PyM contadores :=
    r <- laco_tentativas (tentativas max_tentativas) c ;;
    let '(renomeado, c') := r in
    if negb renomeado && negb (bool_decide (antigo = novo)) then ret (mais_erro c')
    else ret c'.

  (** The world after [n] attempts that failed because the file was held
      open, each followed by its warning and its sleep. *)
Fixpoint apos_falhas (n : nat) (w : world) : world :=
    match n with
    | O => w
    | S n' =>
        let w1 := registrar (CRename antigo novo (Some EACCES)) (w_fs w) (w_relogio w) w in
        let w2 := {| w_fs := w_fs w1; w_ocupado := w_ocupado w1; w_relogio := w_relogio w1;
                     w_chamadas := w_chamadas w1;
                     w_saida := MsgAvisoTentativa nome_antigo EACCES atraso :: w_saida w1 |} in
        apos_falhas n' (registrar (CSleep atraso) (w_fs w2) (w_relogio w2 + atraso)%Z w2)
    end.
End Laco.

(** Number of [os.rename] and [time.sleep] calls in a trace. *)
Definition n_renames (l : list chamada) : nat :=
  List.length (List.filter (fun c => match c with CRename _ _ _ => true | _ => false end) l).
Definition n_sleeps (l : list chamada) : nat :=
  List.length (List.filter (fun c => match c with CSleep _ => true | _ => false end) l).

Section LacoFatos.
Variables (antigo novo nome_antigo novo_nome : pystr).
Variables (max_tentativas atraso : Z).

Local Abbreviation laco := (laco_tentativas antigo novo nome_antigo novo_nome max_tentativas atraso).
Local Abbreviation falhas := (apos_falhas antigo novo nome_antigo atraso).

  (** One attempt on a file held open, before the last attempt: a warning and
      a sleep, and the loop goes on. *)
Lemma laco_passo_ocupado t ts c w :
    (0 <= atraso)%Z -> (t < max_tentativas)%Z ->
    is_Some (w_fs w !! antigo) -> w_ocupado w antigo (w_relogio w) = true ->
    laco (t :: ts) c w = laco ts c (falhas 1 w).
  Proof.
    intros Hd Ht Hs Ho. cbn [laco_tentativas]. unfold catch, bind at 1.
    rewrite (os_rename_falha _ _ _ EACCES) by (by apply rename_falha_ocupado).
    destruct (Z.ltb_spec t max_tentativas); [|lia].
    unfold bind, print, modify. rewrite time_sleep_ok by done. reflexivity.
  Qed.

Lemma apos_falhas_S n w : falhas (S n) w = falhas n (falhas 1 w).
  Proof. reflexivity. Qed.

Lemma apos_falhas_fs n w : w_fs (falhas n w) = w_fs w.
  Proof. revert w. induction n as [|n IH]; intros w; [done|]. by rewrite apos_falhas_S, IH. Qed.

Lemma apos_falhas_ocupado n w : w_ocupado (falhas n w) = w_ocupado w.
  Proof. revert w. induction n as [|n IH]; intros w; [done|]. by rewrite apos_falhas_S, IH. Qed.

Lemma apos_falhas_relogio n w :
    w_relogio (falhas n w) = (w_relogio w + Z.of_nat n * atraso)%Z.
  Proof.
    revert w. induction n as [|n IH]; intros w; [simpl; lia|].
    rewrite apos_falhas_S, IH. simpl. lia.
  Qed.

Lemma apos_falhas_chamadas n w :
    n_renames (w_chamadas (falhas n w)) = n_renames (w_chamadas w) + n /\
    n_sleeps (w_chamadas (falhas n w)) = n_sleeps (w_chamadas w) + n.
  Proof.
    revert w. induction n as [|n IH]; intros w; [simpl; lia|].
    rewrite apos_falhas_S. destruct (IH (falhas 1 w)) as [-> ->].
    unfold n_renames, n_sleeps. simpl. lia.
  Qed.

  (** [n] attempts on a file held open at each of their instants, none of
      them the last: the loop goes on after [n] warnings and sleeps. *)
Lemma laco_falhas ts ts' c w :
    (0 <= atraso)%Z -> Forall (fun t => t < max_tentativas)%Z ts ->
    is_Some (w_fs w !! antigo) ->
    (forall i, i < length ts ->
       w_ocupado w antigo (w_relogio w + Z.of_nat i * atraso)%Z = true) ->
    laco (ts ++ ts') c w = laco ts' c (falhas (length ts) w).
  Proof.
    intros Hd. revert w. induction ts as [|t ts IH]; intros w Hts Hs Ho; [done|].
    inversion Hts as [|? ? Ht Hts']; subst.
    rewrite <- app_comm_cons, laco_passo_ocupado; [|done|done|done|].
    2: { specialize (Ho 0 ltac:(simpl; lia)). by rewrite Z.add_0_r in Ho. }
    rewrite IH; [by rewrite apos_falhas_S|done| |].
    - by rewrite apos_falhas_fs.
    - intros i Hi. rewrite apos_falhas_ocupado, apos_falhas_relogio.
      specialize (Ho (S i) ltac:(simpl; lia)). rewrite <- Ho. f_equal. lia.
  Qed.
End LacoFatos.

(** ** [range(1, max_tentativas + 1)] *)

Lemma length_tentativas m : length (tentativas m) = Z.to_nat m.
Proof. unfold tentativas. by rewrite length_map, length_seq. Qed.

Lemma lookup_tentativas m i :
  i < Z.to_nat m -> tentativas m !! i = Some (Z.of_nat i + 1)%Z.
Proof.
  intros Hi. unfold tentativas. rewrite list_lookup_fmap, lookup_seq_lt by done. done.
Qed.

(** The first [n] attempts, when [n < max_tentativas], are not the last. *)
Lemma tentativas_take_antes m n :
  n < Z.to_nat m -> Forall (fun t => t < m)%Z (take n (tentativas m)).
Proof.
  intros Hn. apply Forall_lookup. intros i t Hit.
  rewrite lookup_take_Some in Hit. destruct Hit as [Hit Hin].
  rewrite lookup_tentativas in Hit by lia. injection Hit as <-. lia.
Qed.

Lemma tentativas_drop m n :
  n < Z.to_nat m -> exists rest, drop n (tentativas m) = (Z.of_nat n + 1)%Z :: rest.
Proof.
  intros Hn. destruct (drop n (tentativas m)) as [|t rest] eqn:E.
  - apply (f_equal length) in E. rewrite length_drop, length_tentativas in E. simpl in E. lia.
  - exists rest. f_equal. pose proof (lookup_tentativas m n Hn) as Hl.
    rewrite <- (take_drop n (tentativas m)), E, lookup_app_r in Hl.
    + rewrite length_take, Nat.min_l, Nat.sub_diag in Hl by (rewrite length_tentativas; lia).
      by injection Hl.
    + rewrite length_take. lia.
Qed.

Section Tentar.
Variables (antigo novo nome_antigo novo_nome : pystr).
Variables (max_tentativas atraso : Z).

Local Abbreviation laco := (laco_tentativas antigo novo nome_antigo novo_nome max_tentativas atraso).
Local Abbreviation tentar := (tentar_renomear antigo novo nome_antigo novo_nome max_tentativas atraso).
Local Abbreviation falhas := (apos_falhas antigo novo nome_antigo atraso).

  (** The check of line 171 changes only the counters. *)
Lemma tentar_chamadas c w :
    w_chamadas (snd (tentar c w)) = w_chamadas (snd (laco (tentativas max_tentativas) c w)).
  Proof.
    unfold tentar_renomear, bind.
    destruct (laco _ c w) as [[e|[[] c']] w']; simpl; repeat case_test; done.
  Qed.

  (** Each turn of the loop calls [os.rename] once. *)
Lemma laco_renames ts c w :
    n_renames (w_chamadas w) + Nat.min 1 (length ts) <= n_renames (w_chamadas (snd (laco ts c w))) /\
    n_renames (w_chamadas (snd (laco ts c w))) <= n_renames (w_chamadas w) + length ts.
  Proof.
    revert c w. induction ts as [|t ts IH]; intros c w; [simpl; lia|].
    cbn [laco_tentativas length]. unfold catch, bind, os_rename. cbv beta.
    destruct (rename_falha w antigo novo) as [e|]; cbn iota;
      [|unfold print, modify, ret, n_renames; simpl; lia].
    destruct (Z.ltb t max_tentativas); unfold print, modify, time_sleep; cbn iota beta;
      [destruct (Z.ltb atraso 0); cbn iota; [unfold n_renames; simpl; lia|]|];
      match goal with
      | |- context [laco ts ?c' ?w'] => destruct (IH c' w') as [IH1 IH2]
      end; destruct (laco ts _ _); unfold n_renames in *; simpl in *; lia.
  Qed.

  (** C12: however the world answers, the loop of lines 157-170 calls
      [os.rename] at least once (when [max_tentativas >= 1]) and at most
      [max_tentativas] times. *)
Theorem tentar_renomear_chamadas c w :
    n_renames (w_chamadas w) + Nat.min 1 (Z.to_nat max_tentativas)
      <= n_renames (w_chamadas (snd (tentar c w))) /\
    n_renames (w_chamadas (snd (tentar c w)))
      <= n_renames (w_chamadas w) + Z.to_nat max_tentativas.
  Proof. rewrite tentar_chamadas, <- length_tentativas. apply laco_renames. Qed.

Lemma tentativas_ultima :
    (1 <= max_tentativas)%Z ->
    tentativas max_tentativas = take (Z.to_nat max_tentativas - 1) (tentativas max_tentativas)
                                ++ [max_tentativas].
  Proof.
    intros Hm. rewrite <- (take_drop (Z.to_nat max_tentativas - 1) (tentativas max_tentativas)) at 1.
    f_equal. destruct (tentativas_drop max_tentativas (Z.to_nat max_tentativas - 1)) as [rest Hr];
      [lia|]. rewrite Hr. pose proof (f_equal length Hr) as Hl.
    rewrite length_drop, length_tentativas in Hl. simpl in Hl.
    destruct rest; [|simpl in Hl; lia]. f_equal. lia.
  Qed.

  (** C3: a file that another process holds open during the whole loop is
      tried exactly [max_tentativas] times, with [max_tentativas - 1]
      sleeps of [atraso] seconds between the attempts, stays where it is,
      and adds 2 to [erros]: line 170 counts it at the last attempt and line
      172 counts it again. *)
Theorem tentar_renomear_ocupado c w :
    (0 <= atraso)%Z -> (1 <= max_tentativas)%Z -> is_Some (w_fs w !! antigo) ->
    (forall t, w_ocupado w antigo t = true) -> antigo <> novo ->
    exists w', tentar c w =
      (inr (mk_contadores (sucessos c) (nao_encontrados c) (erros c + 2)), w') /\
      w_fs w' = w_fs w /\
      n_renames (w_chamadas w') = n_renames (w_chamadas w) + Z.to_nat max_tentativas /\
      n_sleeps (w_chamadas w') = n_sleeps (w_chamadas w) + (Z.to_nat max_tentativas - 1) /\
      w_relogio w' = (w_relogio w + (max_tentativas - 1) * atraso)%Z.
  Proof.
    intros Hd Hm Hs Ho Hne. unfold tentar_renomear, bind at 1.
    rewrite tentativas_ultima, laco_falhas by
      (done || apply tentativas_take_antes; lia || intros; apply Ho).
    rewrite length_take, length_tentativas, Nat.min_l by lia.
    set (n := Z.to_nat max_tentativas - 1). cbn [laco_tentativas]. unfold catch, bind at 1.
    rewrite (os_rename_falha _ _ _ EACCES)
      by (apply rename_falha_ocupado; by rewrite ?apos_falhas_fs, ?apos_falhas_ocupado).
    destruct (Z.ltb_spec max_tentativas max_tentativas); [lia|].
    unfold bind, print, modify, ret. cbn iota beta.
    rewrite bool_decide_eq_false_2 by done. simpl.
    replace (erros c + 2) with (S (S (erros c))) by lia.
    eexists. split; [reflexivity|].
    destruct (apos_falhas_chamadas antigo novo nome_antigo atraso n w) as [Hr Hsl].
    rewrite apos_falhas_fs, apos_falhas_relogio in *. unfold n_renames, n_sleeps in *.
    simpl. rewrite Hr, Hsl. subst n.
    assert (Hn : Z.of_nat (Z.to_nat max_tentativas - 1) = (max_tentativas - 1)%Z) by lia.
    rewrite Hn. repeat split; (done || lia).
  Qed.

  (** C11: a file held open during its first [n] attempts and free at the
      next one, which is not past [max_tentativas], is renamed at that
      attempt (attempt [n + 1]), after [n] sleeps, when its new name is
      free: [sucessos] goes up by one and nothing else changes but the
      file's name. *)
Theorem tentar_renomear_liberado c w n :
    (0 <= atraso)%Z -> n < Z.to_nat max_tentativas ->
    is_Some (w_fs w !! antigo) -> w_fs w !! novo = None ->
    (forall i, i < n -> w_ocupado w antigo (w_relogio w + Z.of_nat i * atraso)%Z = true) ->
    w_ocupado w antigo (w_relogio w + Z.of_nat n * atraso)%Z = false ->
    exists w', tentar c w = (inr (mais_sucesso c), w') /\
      w_fs w' = mover (w_fs w) antigo novo /\
      n_renames (w_chamadas w') = n_renames (w_chamadas w) + S n /\
      n_sleeps (w_chamadas w') = n_sleeps (w_chamadas w) + n.
  Proof.
    intros Hd Hn Hs Hnovo Ho Hfree. unfold tentar_renomear, bind at 1.
    rewrite <- (take_drop n (tentativas max_tentativas)).
    destruct (tentativas_drop max_tentativas n Hn) as [rest ->].
    rewrite laco_falhas; [| done | by apply tentativas_take_antes | done |].
    2: { intros i Hi. rewrite length_take in Hi. apply Ho. lia. }
    rewrite length_take, length_tentativas, Nat.min_l by lia.
    cbn [laco_tentativas]. unfold catch, bind at 1.
    rewrite os_rename_ok by (apply rename_falha_livre;
      by rewrite ?apos_falhas_fs, ?apos_falhas_ocupado, ?apos_falhas_relogio).
    unfold bind, print, modify, ret. simpl.
    eexists. split; [done|].
    destruct (apos_falhas_chamadas antigo novo nome_antigo atraso n w) as [Hr Hsl].
    rewrite apos_falhas_fs. unfold n_renames, n_sleeps in *. simpl. rewrite Hr, Hsl.
    repeat split; (done || lia).
  Qed.

  (** C21: with a negative delay, the first failed attempt that is not the
      last makes [time.sleep] raise [ValueError]: the exception leaves the
      loop and the file is not retried. *)
Theorem tentar_renomear_atraso_negativo c w :
    (atraso < 0)%Z -> (2 <= max_tentativas)%Z -> is_Some (w_fs w !! antigo) ->
    w_ocupado w antigo (w_relogio w) = true ->
    exists w', tentar c w = (inl (ExcValue VNegativeSleep), w') /\
      w_fs w' = w_fs w /\ n_renames (w_chamadas w') = S (n_renames (w_chamadas w)).
  Proof.
    intros Hd Hm Hs Ho. unfold tentar_renomear, bind at 1.
    rewrite <- (take_drop 0 (tentativas max_tentativas)).
    destruct (tentativas_drop max_tentativas 0) as [rest ->]; [lia|]. simpl.
    unfold catch, bind at 1.
    rewrite (os_rename_falha _ _ _ EACCES) by (by apply rename_falha_ocupado).
    change (Z.of_nat 0 + 1)%Z with 1%Z.
    destruct (Z.ltb_spec 1 max_tentativas); [|lia].
    unfold bind, print, modify. cbn beta iota. rewrite time_sleep_neg by done. simpl.
    eexists. split; [done|]. unfold n_renames. simpl. split; [done|lia].
  Qed.

(** With a non-negative delay, the loop over [pre ++ [max_tentativas]],
    whose first attempts are not the last, ends without exception: either
    renamed, with one success and the file moved, or not renamed, with the
    error of line 170 and the file system as it was. *)
Lemma laco_pre_ultima pre c w :
  (0 <= atraso)%Z -> Forall (fun t => t < max_tentativas)%Z pre ->
  exists w',
    (laco (pre ++ [max_tentativas]) c w = (inr (true, mais_sucesso c), w') /\
     movido (w_fs w) antigo novo (w_fs w')) \/
    (laco (pre ++ [max_tentativas]) c w = (inr (false, mais_erro c), w') /\ w_fs w' = w_fs w).
Proof.
  intros Hd. revert w. induction pre as [|t pre IH]; intros w Hpre;
    cbn [app laco_tentativas]; unfold catch, bind, os_rename, print, modify, ret; cbv beta.
  - destruct (rename_falha w antigo novo) as [e|] eqn:E; cbn iota;
      [|eexists; left; split; [done|by apply rename_falha_movido]].
    destruct (Z.ltb_spec max_tentativas max_tentativas); [lia|]. simpl. eauto.
  - inversion Hpre as [|? ? Ht Hpre']; subst.
    destruct (rename_falha w antigo novo) as [e|] eqn:E; cbn iota;
      [|eexists; left; split; [done|by apply rename_falha_movido]].
    destruct (Z.ltb_spec t max_tentativas); [|lia].
    unfold time_sleep. destruct (Z.ltb_spec atraso 0); [lia|].
    edestruct IH as [w' Hw]; [exact Hpre'|]. exists w'. exact Hw.
Qed.

(** With at least one attempt and a non-negative delay, a rename between
    two different paths ends without exception: with one success and the
    file moved, or with two errors and the file system as it was. *)
Lemma tentar_resultado c w :
  (0 <= atraso)%Z -> (1 <= max_tentativas)%Z -> antigo <> novo ->
  exists w',
    (tentar c w = (inr (mais_sucesso c), w') /\ movido (w_fs w) antigo novo (w_fs w')) \/
    (tentar c w = (inr (mais_erro (mais_erro c)), w') /\ w_fs w' = w_fs w).
Proof.
  intros Hd Hm Hne. unfold tentar_renomear, bind. rewrite tentativas_ultima by done.
  destruct (laco_pre_ultima (take (Z.to_nat max_tentativas - 1) (tentativas max_tentativas)) c w)
    as [w' [[E Hf] | [E Hf]]]; [done|apply tentativas_take_antes; lia| |]; rewrite E;
    exists w'; [by left|].
  right. rewrite bool_decide_eq_false_2 by done. done.
Qed.


(** The loop raises nothing but the [ValueError] of a negative sleep: every
    [OSError] of [os.rename] is caught by the [except] of line 164. *)
Lemma laco_levanta ts c : levanta_so (fun e => e = ExcValue VNegativeSleep) (laco ts c).
Proof.
  revert c. induction ts as [|t ts IH]; intros c; cbn [laco_tentativas]; [auto with efeitos|].
  apply (levanta_catch _ (fun e => exists oe, e = ExcOS oe)).
  - apply levanta_bind; [apply levanta_os_rename|intros ?]. efeitos.
  - intros e [oe ->]. destruct (Z.ltb t max_tentativas); efeitos; auto using levanta_time_sleep.
Qed.

Lemma tentar_levanta c : levanta_so (fun e => e = ExcValue VNegativeSleep) (tentar c).
Proof. unfold tentar_renomear. apply levanta_bind; [apply laco_levanta|intros [[] c']]; efeitos. Qed.

End Tentar.

(** ** Witnesses: the folder [y:\p] with one file, held open as stated *)

Lemma tentar_renomear_ocupado_witness :
  exists w', tentar_renomear (lit "y:\p\1.pdf") (lit "y:\p\1 - A - B X C.pdf")
      (lit "1.pdf") (lit "1 - A - B X C.pdf") 3 1 (mk_contadores 0 0 0)
      (mk_world (<[lit "y:\p\1.pdf" := NFile None]> ∅) (fun _ _ => true) 0 [] []) =
    (inr (mk_contadores 0 0 (0 + 2)), w') /\
    w_fs w' = <[lit "y:\p\1.pdf" := NFile None]> ∅ /\
    n_renames (w_chamadas w') = 0 + Z.to_nat 3 /\
    n_sleeps (w_chamadas w') = 0 + (Z.to_nat 3 - 1) /\
    w_relogio w' = (0 + (3 - 1) * 1)%Z.
Proof.
  destruct (tentar_renomear_ocupado (lit "y:\p\1.pdf") (lit "y:\p\1 - A - B X C.pdf")
    (lit "1.pdf") (lit "1 - A - B X C.pdf") 3 1 (mk_contadores 0 0 0)
    (mk_world (<[lit "y:\p\1.pdf" := NFile None]> ∅) (fun _ _ => true) 0 [] []))
    as [w' Hw]; [lia|lia|by eexists|done|discriminate|].
  exists w'. exact Hw.
Defined.

Lemma tentar_renomear_liberado_witness :
  exists w', tentar_renomear (lit "y:\p\1.pdf") (lit "y:\p\1 - A - B X C.pdf")
      (lit "1.pdf") (lit "1 - A - B X C.pdf") 3 1 (mk_contadores 0 0 0)
      (mk_world (<[lit "y:\p\1.pdf" := NFile None]> ∅) (fun _ t => Z.ltb t 2) 0 [] []) =
    (inr (mais_sucesso (mk_contadores 0 0 0)), w') /\
    w_fs w' = mover (<[lit "y:\p\1.pdf" := NFile None]> ∅)
                (lit "y:\p\1.pdf") (lit "y:\p\1 - A - B X C.pdf") /\
    n_renames (w_chamadas w') = 0 + S 2 /\
    n_sleeps (w_chamadas w') = 0 + 2.
Proof.
  destruct (tentar_renomear_liberado (lit "y:\p\1.pdf") (lit "y:\p\1 - A - B X C.pdf")
    (lit "1.pdf") (lit "1 - A - B X C.pdf") 3 1 (mk_contadores 0 0 0)
    (mk_world (<[lit "y:\p\1.pdf" := NFile None]> ∅) (fun _ t => Z.ltb t 2) 0 [] []) 2)
    as [w' Hw]; [lia|simpl; lia|by eexists|reflexivity| |reflexivity|].
  - intros i Hi. simpl. destruct i as [|[|i]]; [done|done|lia].
  - exists w'. exact Hw.
Defined.

Lemma tentar_renomear_atraso_negativo_witness :
  exists w', tentar_renomear (lit "y:\p\1.pdf") (lit "y:\p\1 - A - B X C.pdf")
      (lit "1.pdf") (lit "1 - A - B X C.pdf") 3 (-1) (mk_contadores 0 0 0)
      (mk_world (<[lit "y:\p\1.pdf" := NFile None]> ∅) (fun _ _ => true) 0 [] []) =
    (inl (ExcValue VNegativeSleep), w') /\
    w_fs w' = <[lit "y:\p\1.pdf" := NFile None]> ∅ /\
    n_renames (w_chamadas w') = S 0.
Proof.
  destruct (tentar_renomear_atraso_negativo (lit "y:\p\1.pdf") (lit "y:\p\1 - A - B X C.pdf")
    (lit "1.pdf") (lit "1 - A - B X C.pdf") 3 (-1) (mk_contadores 0 0 0)
    (mk_world (<[lit "y:\p\1.pdf" := NFile None]> ∅) (fun _ _ => true) 0 [] []))
    as [w' Hw]; [lia|lia|by eexists|done|].
  exists w'. exact Hw.
Defined.
