(* ===== verification/Renamer.v ===== *)
(** * The loop over the folder (lines 116-181)

    [processar_arquivo] is the body of [for nome_arquivo_antigo in
    arquivos_na_pasta] (lines 122-175): the old path, [os.path.splitext],
    the stripped stem looked up in the table, the new name and path, the
    already-correct test of line 151, the rename with retries, or the
    not-found branch.  [processar_arquivos] is the loop itself, threading
    the three counters of lines 117-119.

    Theorems: a file whose stem is no key is left alone and counted as not
    found; the already-correct branch is never taken; each file adds one to
    [sucessos] or to [nao_encontrados], or two to [erros]; over a whole
    folder, [sucessos + nao_encontrados + falhas = total] and
    [erros = 2 * falhas], so the printed counters add up to more than the
    number of files whenever a rename fails; a sheet whose process numbers
    are numbers renames nothing. *)

From S2P Require Import Prelude.
From S2P Require Import PyStr.
From S2P Require Import Config.
From S2P Require Import Table.
From S2P Require Import Naming.
From S2P Require Import World.
From S2P Require Import Retry.
From stdpp Require Import base list gmap strings.
From Stdlib Require Import Ascii ZArith Lia.

Local Open Scope py_scope.

(** Lines 122-175, for one name of the folder. *)
Definition processar_arquivo (cfg : config) (dados_processos : tabela)
    (nome_arquivo_antigo : pystr) (c : contadores) : PyM contadores :=
  let pasta := pasta_arquivos cfg in
  let caminho_arquivo_antigo := path_join pasta nome_arquivo_antigo in
  let '(nome_base, extensao) := splitext nome_arquivo_antigo in
  let numero_processo_arquivo := strip nome_base in
  match dados_processos !! CStr numero_processo_arquivo with
  | Some dados =>
      let novo := novo_nome_arquivo cfg numero_processo_arquivo dados extensao in
      let caminho_arquivo_novo := path_join pasta novo in
      if bool_decide (caminho_arquivo_antigo = caminho_arquivo_novo) then
        print (MsgIgnorando nome_arquivo_antigo) ;;; ret (mais_sucesso c)
      else
        tentar_renomear caminho_arquivo_antigo caminho_arquivo_novo
          nome_arquivo_antigo novo (max_tentativas cfg) (atraso_entre_tentativas cfg) c
  | None =>
      print (MsgNaoEncontrado nome_arquivo_antigo) ;;; ret (mais_nao_encontrado c)
  end.

(** Lines 122-175: the loop over [arquivos_na_pasta]. *)
Fixpoint processar_arquivos (cfg : config) (dados_processos : tabela)
    (nomes : list pystr) (c : contadores) : PyM contadores :=
  match nomes with
  | [] => ret c
  | nome :: nomes' =>
      c' <- processar_arquivo cfg dados_processos nome c ;;
      processar_arquivos cfg dados_processos nomes' c'
  end.

(** The key a file name is looked up under: its stripped stem. *)
Definition chave_do_arquivo (nome : pystr) : cell := CStr (strip (splitext nome).1).

(** ** The already-correct test of line 151 never holds *)

Lemma caminho_novo_difere cfg nome dados :
  path_join (pasta_arquivos cfg) nome <>
  path_join (pasta_arquivos cfg)
    (novo_nome_arquivo cfg (strip (splitext nome).1) dados (splitext nome).2).
Proof.
  intros H%path_join_inj. pose proof (tracos_novo_nome_arquivo cfg nome dados) as Ht.
  rewrite <- H in Ht. lia.
Qed.

(** ** One file *)

Section Passo.
Variables (cfg : config) (dados_processos : tabela).
Hypothesis atraso_nao_negativo : (0 <= atraso_entre_tentativas cfg)%Z.
Hypothesis alguma_tentativa : (1 <= max_tentativas cfg)%Z.

(** Each file ends without exception and adds one to [sucessos], one to
    [nao_encontrados], or two to [erros]. *)
Lemma processar_arquivo_passo nome c w :
  exists c' w', processar_arquivo cfg dados_processos nome c w = (inr c', w') /\
    (c' = mais_sucesso c \/ c' = mais_nao_encontrado c \/ c' = mais_erro (mais_erro c)).
Proof.
  pose proof (caminho_novo_difere cfg nome) as Hdif.
  unfold processar_arquivo. destruct (splitext nome) as [base ext]. simpl in Hdif.
  destruct (dados_processos !! CStr (strip base)) as [dados|].
  - rewrite bool_decide_eq_false_2 by apply Hdif.
    destruct (tentar_resultado (path_join (pasta_arquivos cfg) nome)
      (path_join (pasta_arquivos cfg) (novo_nome_arquivo cfg (strip base) dados ext))
      nome (novo_nome_arquivo cfg (strip base) dados ext)
      (max_tentativas cfg) (atraso_entre_tentativas cfg) c w)
      as [w' [[E _]|[E _]]]; [done|done|apply Hdif| |]; rewrite E; eauto 10.
  - unfold bind, print, modify, ret. eauto 10.
Qed.

(** The counts of a stretch of the loop: [falhas] files failed and added
    two errors each, every other file added one success or one not-found. *)
Lemma processar_arquivos_contas nomes c w :
  exists c' w' falhas, processar_arquivos cfg dados_processos nomes c w = (inr c', w') /\
    erros c' = erros c + 2 * falhas /\
    sucessos c' + nao_encontrados c' + falhas = sucessos c + nao_encontrados c + length nomes.
Proof.
  revert c w. induction nomes as [|nome nomes IH]; intros c w.
  - exists c, w, 0. simpl. split; [done|lia].
  - destruct (processar_arquivo_passo nome c w) as (c1 & w1 & E1 & Hc1).
    destruct (IH c1 w1) as (c' & w' & k & E & Herr & Hsum).
    cbn [processar_arquivos]. unfold bind at 1. rewrite E1, E.
    destruct Hc1 as [-> | [-> | ->]]; simpl in *.
    + exists c', w', k. split; [done|lia].
    + exists c', w', k. split; [done|lia].
    + exists c', w', (S k). split; [done|lia].
Qed.
End Passo.

(** Over a whole folder the loop raises nothing but the [ValueError] of a
    negative sleep. *)
Lemma processar_arquivo_levanta cfg dados nome c :
  levanta_so (fun e => e = ExcValue VNegativeSleep) (processar_arquivo cfg dados nome c).
Proof.
  unfold processar_arquivo. destruct (splitext nome) as [base ext].
  destruct (dados !! _); [case_bool_decide; [efeitos|apply tentar_levanta]|efeitos].
Qed.

Lemma processar_arquivos_levanta cfg dados nomes c :
  levanta_so (fun e => e = ExcValue VNegativeSleep) (processar_arquivos cfg dados nomes c).
Proof.
  revert c. induction nomes as [|nome nomes IH]; intros c; simpl; [auto with efeitos|].
  apply levanta_bind; [apply processar_arquivo_levanta|done].
Qed.

(** ** Properties of the loop *)

(** C4: over any folder, with at least one attempt and a non-negative delay,
    the loop ends without exception, and its counters, started at zero as
    on lines 117-119, satisfy [sucessos + nao_encontrados + falhas = total]
    and [erros = 2 * falhas], where [falhas] is the number of files whose
    rename failed at every attempt: each failed file is counted twice. *)
Theorem resumo_contadores cfg dados_processos nomes w :
  (0 <= atraso_entre_tentativas cfg)%Z -> (1 <= max_tentativas cfg)%Z ->
  exists c' w' falhas,
    processar_arquivos cfg dados_processos nomes (mk_contadores 0 0 0) w = (inr c', w') /\
    erros c' = 2 * falhas /\
    sucessos c' + nao_encontrados c' + falhas = length nomes.
Proof.
  intros Hd Hm.
  destruct (processar_arquivos_contas cfg dados_processos Hd Hm nomes (mk_contadores 0 0 0) w)
    as (c' & w' & k & E & Herr & Hsum).
  exists c', w', k. simpl in *. split; [done|lia].
Qed.

(** C17: a file whose stripped stem is not a process number of the table is
    left untouched: no [os.rename], no sleep, one warning, and one more
    [nao_encontrados]. *)
Theorem processar_arquivo_nao_encontrado cfg dados_processos nome c w :
  dados_processos !! chave_do_arquivo nome = None ->
  processar_arquivo cfg dados_processos nome c w =
  (inr (mais_nao_encontrado c),
   {| w_fs := w_fs w; w_ocupado := w_ocupado w; w_relogio := w_relogio w;
      w_chamadas := w_chamadas w; w_saida := MsgNaoEncontrado nome :: w_saida w |}).
Proof.
  unfold chave_do_arquivo, processar_arquivo. destruct (splitext nome) as [base ext].
  simpl. intros ->. reflexivity.
Qed.

(** C23: a sheet whose process numbers are all numbers: pandas reads them as
    [int]s, so the keys of the table built by lines 83-99 are integers, and
    the membership test of line 129 compares them with the string stem of
    each file.  No file is found, nothing is renamed or retried, and every
    file adds one to [nao_encontrados]. *)
Theorem planilha_numerica_nada_renomeia cfg df t nomes c w :
  (forall r, r ∈ df -> is_nan (chave (coluna_processo_planilha cfg) r) = false ->
     exists z, chave (coluna_processo_planilha cfg) r = CInt z) ->
  tabela_processos (coluna_processo_planilha cfg) df = inr t ->
  exists w', processar_arquivos cfg t nomes c w =
    (inr (mk_contadores (sucessos c) (nao_encontrados c + length nomes) (erros c)), w') /\
    w_fs w' = w_fs w /\ w_chamadas w' = w_chamadas w.
Proof.
  intros Hnum Ht. revert c w. induction nomes as [|nome nomes IH]; intros c w.
  - exists w. rewrite Nat.add_0_r. by destruct c.
  - cbn [processar_arquivos]. unfold bind at 1, processar_arquivo.
    destruct (splitext nome) as [base ext].
    destruct (t !! CStr (strip base)) as [d|] eqn:Ed.
    + exfalso. destruct (tabela_processos_chave _ _ _ _ _ Ht Ed) as (r & Hr & Hk & Hn).
      destruct (Hnum r Hr) as [z Hz]; [by rewrite Hk|]. congruence.
    + unfold bind, print, modify, ret. cbv beta iota.
      match goal with |- context [processar_arquivos cfg t nomes _ ?w1] =>
        destruct (IH (mais_nao_encontrado c) w1) as (w' & E & Hf & Hc) end.
      rewrite E. exists w'. simpl in *. rewrite Hf, Hc.
      split; [do 3 f_equal; lia|done].
Qed.

(** ** Witnesses *)

Lemma resumo_contadores_witness :
  exists c' w' falhas,
    processar_arquivos (config_padrao (lit "y:\p")) ∅ [lit "99999.pdf"] (mk_contadores 0 0 0)
      (mk_world (<[lit "y:\p\99999.pdf" := NFile None]> ∅) (fun _ _ => false) 0 [] [])
    = (inr c', w') /\ erros c' = 2 * falhas /\
    sucessos c' + nao_encontrados c' + falhas = length [lit "99999.pdf"].
Proof.
  destruct (resumo_contadores (config_padrao (lit "y:\p")) ∅ [lit "99999.pdf"]
    (mk_world (<[lit "y:\p\99999.pdf" := NFile None]> ∅) (fun _ _ => false) 0 [] []))
    as (c' & w' & k & H); [vm_compute; discriminate|vm_compute; discriminate|].
  exists c', w', k. exact H.
Defined.

Lemma processar_arquivo_nao_encontrado_witness :
  processar_arquivo (config_padrao (lit "y:\p")) (<[CStr (lit "12345") := ∅]> ∅)
    (lit "99999.pdf") (mk_contadores 0 0 0)
    (mk_world (<[lit "y:\p\99999.pdf" := NFile None]> ∅) (fun _ _ => false) 0 [] []) =
  (inr (mais_nao_encontrado (mk_contadores 0 0 0)),
   {| w_fs := <[lit "y:\p\99999.pdf" := NFile None]> ∅; w_ocupado := fun _ _ => false;
      w_relogio := 0; w_chamadas := []; w_saida := [MsgNaoEncontrado (lit "99999.pdf")] |}).
Proof.
  refine (processar_arquivo_nao_encontrado (config_padrao (lit "y:\p"))
    (<[CStr (lit "12345") := ∅]> ∅) (lit "99999.pdf") (mk_contadores 0 0 0)
    (mk_world (<[lit "y:\p\99999.pdf" := NFile None]> ∅) (fun _ _ => false) 0 [] []) _).
  vm_compute. reflexivity.
Defined.

Lemma planilha_numerica_nada_renomeia_witness :
  exists w', processar_arquivos (config_padrao (lit "y:\p"))
      (list_to_map [(CInt 12345, delete COLUNA_NUMERO_PROCESSO
                                   {[COLUNA_NUMERO_PROCESSO := CInt 12345]})])
      [lit "12345.pdf"] (mk_contadores 0 0 0)
      (mk_world {[lit "y:\p\12345.pdf" := NFile None]} (fun _ _ => false) 0 [] []) =
    (inr (mk_contadores (sucessos (mk_contadores 0 0 0))
            (nao_encontrados (mk_contadores 0 0 0) + length [lit "12345.pdf"])
            (erros (mk_contadores 0 0 0))), w') /\
    w_fs w' = {[lit "y:\p\12345.pdf" := NFile None]} /\ w_chamadas w' = [].
Proof.
  destruct (planilha_numerica_nada_renomeia (config_padrao (lit "y:\p"))
    [{[COLUNA_NUMERO_PROCESSO := CInt 12345]}]
    (list_to_map [(CInt 12345, delete COLUNA_NUMERO_PROCESSO
                                 {[COLUNA_NUMERO_PROCESSO := CInt 12345]})])
    [lit "12345.pdf"] (mk_contadores 0 0 0)
    (mk_world {[lit "y:\p\12345.pdf" := NFile None]} (fun _ _ => false) 0 [] []))
    as [w' H].
  - intros r Hr _. apply list_elem_of_singleton in Hr as ->. exists 12345%Z. vm_compute. reflexivity.
  - vm_compute. reflexivity.
  - exists w'. exact H.
Defined.
