(* ===== verification/Refinamento.v ===== *)
(** * The contract of the loop over the folder, and its refinement

    Module [Spec] states the Rename Executor of the specification (section
    4.4) as a relation on an abstract state, the file system and the three
    counters.  Each file takes one step ([passo]):
    - its stripped stem is no key of the table: nothing moves, one more
      not-found;
    - its target path is its own path: nothing moves, one more success;
    - otherwise the file, which exists, moves to its target path, which is
      free, with one more success;
    - or the operating system refuses every attempt: nothing moves, one
      more error.
    Which of the last two happens is the operating system's choice: the
    contract is a relation, not a function.  [execucao] chains the steps
    over the list of files, in order.

    The refinement theorem [processar_arquivos_refina] shows that the loop
    of lines 122-175 ([processar_arquivos]) implements this contract: every
    run of it, with a non-negative delay and at least one attempt, returns,
    and there is an execution of the contract from the same file system
    and zero counters to the file system the run leaves, whose counters are
    the run's, except that the run counts each error twice (lines 170 and
    172).  The simulation relation on counters is [contas_rel]. *)

From S2P Require Import Prelude.
From S2P Require Import PyStr.
From S2P Require Import Config.
From S2P Require Import Table.
From S2P Require Import Naming.
From S2P Require Import World.
From S2P Require Import Retry.
From S2P Require Import Renamer.
From stdpp Require Import base list gmap strings.
From Stdlib Require Import ZArith Lia.

Local Open Scope py_scope.

Module Spec.

(** The abstract state: the file system and the counters. *)
Record estado := mk_estado {
  e_fs : gmap pystr node;
  e_contas : contadores
}.

Section Regras.
Variables (cfg : config) (dados : tabela).

(** The path of a file of the folder, and its target path for row [d]. *)
Definition origem (nome : pystr) : pystr := path_join (pasta_arquivos cfg) nome.
Definition alvo (nome : pystr) (d : row) : pystr :=
  path_join (pasta_arquivos cfg)
    (novo_nome_arquivo cfg (strip (splitext nome).1) d (splitext nome).2).

Inductive passo : estado -> pystr -> estado -> Prop :=
| passo_nao_encontrado fs c nome :
    dados !! chave_do_arquivo nome = None ->
    passo (mk_estado fs c) nome (mk_estado fs (mais_nao_encontrado c))
| passo_ja_correto fs c nome d :
    dados !! chave_do_arquivo nome = Some d -> alvo nome d = origem nome ->
    passo (mk_estado fs c) nome (mk_estado fs (mais_sucesso c))
| passo_renomeado fs c nome d n :
    dados !! chave_do_arquivo nome = Some d -> alvo nome d <> origem nome ->
    fs !! origem nome = Some n -> fs !! alvo nome d = None ->
    passo (mk_estado fs c) nome
      (mk_estado (<[alvo nome d := n]> (delete (origem nome) fs)) (mais_sucesso c))
| passo_falhou fs c nome d :
    dados !! chave_do_arquivo nome = Some d -> alvo nome d <> origem nome ->
    passo (mk_estado fs c) nome (mk_estado fs (mais_erro c)).

Inductive execucao : estado -> list pystr -> estado -> Prop :=
| execucao_nil s : execucao s [] s
| execucao_cons s s' s'' nome nomes :
    passo s nome s' -> execucao s' nomes s'' -> execucao s (nome :: nomes) s''.

(** The sum of the three counters. *)
Definition total (c : contadores) : nat := sucessos c + nao_encontrados c + erros c.

(** In the contract every file is counted once: the counters add up to the
    number of files, as section 8 of the specification requires. *)
Lemma execucao_total s nomes s' :
  execucao s nomes s' -> total (e_contas s') = total (e_contas s) + length nomes.
Proof.
  induction 1 as [|s s' s'' nome nomes Hp _ IH]; simpl; [lia|].
  rewrite IH. inversion Hp; subst; unfold total; simpl; lia.
Qed.
End Regras.

End Spec.

(** ** The simulation *)

(** The run's counters against the contract's: the same successes and
    not-founds, twice the errors. *)
Definition contas_rel (c ca : contadores) : Prop :=
  sucessos c = sucessos ca /\ nao_encontrados c = nao_encontrados ca /\ erros c = 2 * erros ca.

Section Simulacao.
Variables (cfg : config) (dados : tabela).
Hypothesis atraso_nao_negativo : (0 <= atraso_entre_tentativas cfg)%Z.
Hypothesis alguma_tentativa : (1 <= max_tentativas cfg)%Z.

(** One file: the step of the run is a step of the contract. *)
Lemma processar_arquivo_simula nome c ca w :
  contas_rel c ca ->
  exists c' ca' w', processar_arquivo cfg dados nome c w = (inr c', w') /\
    Spec.passo cfg dados (Spec.mk_estado (w_fs w) ca) nome (Spec.mk_estado (w_fs w') ca') /\
    contas_rel c' ca'.
Proof.
  intros (Hs & Hn & He). pose proof (caminho_novo_difere cfg nome) as Hdif.
  unfold processar_arquivo. destruct (splitext nome) as [base ext] eqn:Es. simpl in Hdif.
  assert (Hch : chave_do_arquivo nome = CStr (strip base)).
  { unfold chave_do_arquivo. by rewrite Es. }
  destruct (dados !! CStr (strip base)) as [d|] eqn:Ed.
  - assert (Halvo : Spec.alvo cfg nome d =
      path_join (pasta_arquivos cfg) (novo_nome_arquivo cfg (strip base) d ext)).
    { unfold Spec.alvo. by rewrite Es. }
    specialize (Hdif d). rewrite <- Halvo in *. fold (Spec.origem cfg nome) in *.
    rewrite <- Hch in Ed. rewrite bool_decide_eq_false_2 by apply Hdif.
    destruct (tentar_resultado (Spec.origem cfg nome) (Spec.alvo cfg nome d)
      nome (novo_nome_arquivo cfg (strip base) d ext)
      (max_tentativas cfg) (atraso_entre_tentativas cfg) c w)
      as [w' [[E (n & Hsrc & [Heq|Hfree] & Hfs)] | [E Hfs]]];
      [done|done|apply Hdif|by apply Hdif in Heq| |]; rewrite E.
    + exists (mais_sucesso c), (mais_sucesso ca), w'. split; [done|].
      split; [|unfold contas_rel; simpl; lia].
      unfold mover in Hfs. rewrite Hsrc in Hfs. rewrite Hfs.
      apply (Spec.passo_renomeado cfg dados _ _ _ d); auto.
    + exists (mais_erro (mais_erro c)), (mais_erro ca), w'. split; [done|].
      split; [|unfold contas_rel; simpl; lia].
      rewrite Hfs. apply (Spec.passo_falhou cfg dados _ _ _ d); auto.
  - unfold bind, print, modify, ret. exists (mais_nao_encontrado c), (mais_nao_encontrado ca).
    eexists. split; [done|]. split; [|unfold contas_rel; simpl; lia].
    apply Spec.passo_nao_encontrado. by rewrite Hch.
Qed.

Lemma processar_arquivos_simula nomes c ca w :
  contas_rel c ca ->
  exists c' ca' w', processar_arquivos cfg dados nomes c w = (inr c', w') /\
    Spec.execucao cfg dados (Spec.mk_estado (w_fs w) ca) nomes (Spec.mk_estado (w_fs w') ca') /\
    contas_rel c' ca'.
Proof.
  revert c ca w. induction nomes as [|nome nomes IH]; intros c ca w Hr.
  - do 3 eexists. split; [done|]. split; [constructor|done].
  - destruct (processar_arquivo_simula nome c ca w Hr) as (c1 & ca1 & w1 & E1 & Hp & Hr1).
    destruct (IH c1 ca1 w1 Hr1) as (c' & ca' & w' & E & Hx & Hr').
    cbn [processar_arquivos]. unfold bind at 1. rewrite E1, E.
    do 3 eexists. split; [done|]. split; [econstructor; eauto|done].
Qed.
End Simulacao.

(** C1: refinement of the contract of section 4.4.  With a non-negative
    delay and at least one attempt, the loop of lines 116-175, started with
    the zero counters of lines 117-119, always returns, and its run is an
    execution of [Spec.execucao] from the same file system to the file
    system it leaves: unmatched files stay, a matched file either moves to
    its synthesized name (which was free) or stays.  Its counters are the
    contract's successes and not-founds, and twice the contract's errors. *)
Theorem processar_arquivos_refina cfg dados nomes w :
  (0 <= atraso_entre_tentativas cfg)%Z -> (1 <= max_tentativas cfg)%Z ->
  exists ca w',
    processar_arquivos cfg dados nomes (mk_contadores 0 0 0) w =
      (inr (mk_contadores (sucessos ca) (nao_encontrados ca) (2 * erros ca)), w') /\
    Spec.execucao cfg dados (Spec.mk_estado (w_fs w) (mk_contadores 0 0 0)) nomes
      (Spec.mk_estado (w_fs w') ca).
Proof.
  intros Hd Hm.
  destruct (processar_arquivos_simula cfg dados Hd Hm nomes (mk_contadores 0 0 0)
    (mk_contadores 0 0 0) w) as ([s n e] & ca & w' & E & Hx & Hs & Hn & He);
    [unfold contas_rel; simpl; lia|].
  exists ca, w'. simpl in *. subst. by rewrite E.
Qed.

(** ** Witness *)

Lemma processar_arquivos_refina_witness :
  exists ca w',
    processar_arquivos (config_padrao (lit "y:\p")) ∅ [lit "99999.pdf"] (mk_contadores 0 0 0)
      (mk_world (<[lit "y:\p\99999.pdf" := NFile None]> ∅) (fun _ _ => false) 0 [] []) =
      (inr (mk_contadores (sucessos ca) (nao_encontrados ca) (2 * erros ca)), w') /\
    Spec.execucao (config_padrao (lit "y:\p")) ∅
      (Spec.mk_estado (<[lit "y:\p\99999.pdf" := NFile None]> ∅) (mk_contadores 0 0 0))
      [lit "99999.pdf"] (Spec.mk_estado (w_fs w') ca).
Proof.
  destruct (processar_arquivos_refina (config_padrao (lit "y:\p")) ∅ [lit "99999.pdf"]
    (mk_world (<[lit "y:\p\99999.pdf" := NFile None]> ∅) (fun _ _ => false) 0 [] []))
    as (ca & w' & H); [vm_compute; discriminate|vm_compute; discriminate|].
  exists ca, w'. exact H.
Defined.
