(* ===== verification/Main.v ===== *)
(** * The top-level function and the [__main__] block

    [renomear_arquivos_por_planilha] (lines 28-202): the banner (53-57),
    then inside [try]: the spreadsheet checks and load ([carregar_planilha],
    lines 61-100), the folder checks and listing ([escanear_pasta], lines
    102-114), the loop over the files (116-175) and the summary (177-181);
    every exception ends in one of the handlers of lines 183-202
    ([tratador_de]).  [main] is the [__main__] block (lines 247-269): the
    folder typed by the user, re-asked until it is a directory
    ([validar_pasta]), the call with the configured constants, and the final
    [input()].  The user's lines are the list [entradas]; running out of
    them is the [EOFError] of [input()]. *)

From S2P Require Import Prelude.
From S2P Require Import PyStr.
From S2P Require Import Config.
From S2P Require Import Table.
From S2P Require Import Naming.
From S2P Require Import World.
From S2P Require Import Retry.
From S2P Require Import Renamer.
From stdpp Require Import base list gmap strings.
From Stdlib Require Import Ascii ZArith Lia.

Local Open Scope py_scope.

(** The handlers of lines 183-202, in their order. *)
Inductive tratador : Type :=
| TrArquivoOuPasta      (* except FileNotFoundError, line 183 *)
| TrNaoDiretorio        (* except NotADirectoryError, line 189 *)
| TrColuna              (* except KeyError, line 192 *)
| TrValor               (* except ValueError, line 195 *)
| TrVazia               (* except pd.errors.EmptyDataError, line 199 *)
| TrInesperado.         (* except Exception, line 201 *)

(** The first handler whose class the exception belongs to.  [ENOENT] of
    [os.rename] is a [FileNotFoundError]; the other [OSError]s and the
    remaining exceptions reach [except Exception]. *)
Definition tratador_de (e : exc) : tratador :=
  match e with
  | ExcFileNotFound _ | ExcOS ENOENT => TrArquivoOuPasta
  | ExcNotADirectory _ => TrNaoDiretorio
  | ExcValue _ => TrValor
  | ExcOS _ | ExcEOF => TrInesperado
  end.

(** How a call of [renomear_arquivos_por_planilha] ends: the summary of
    lines 177-181, one of the two early [return]s (lines 86 and 114), or a
    handler. *)
Inductive resultado : Type :=
| Concluido (total sucessos nao_encontrados erros : nat)
| SemLinhas
| SemArquivos
| ErroFatal (t : tratador) (e : exc).

(** Lines 61-100. [None] is the [return] of line 86. *)
Definition carregar_planilha (cfg : config) : PyM (option tabela) :=
  let colunas_necessarias := [coluna_processo_planilha cfg; coluna_cliente_planilha cfg;
                              coluna_parte_adversa_planilha cfg; coluna_advogado_planilha cfg] in
  existe <- os_path_exists (caminho_planilha cfg) ;;
  if negb existe then raise (ExcFileNotFound (caminho_planilha cfg)) else
  print (MsgLendo (caminho_planilha cfg) (nome_aba_planilha cfg)) ;;;
  df <- pd_read_excel (caminho_planilha cfg) (nome_aba_planilha cfg) colunas_necessarias ;;
  print (MsgCarregada (length df)) ;;;
  let df := dropna (coluna_processo_planilha cfg) df in
  match df with
  | [] => print MsgAvisoSemLinhas ;;; ret None
  | _ =>
      (if duplicated_any (coluna_processo_planilha cfg) df then
         print MsgAvisoDuplicatas ;;;
         print (MsgAposDeduplicar (length (deduplicar (coluna_processo_planilha cfg) df)))
       else ret tt) ;;;
      match to_dict_index (coluna_processo_planilha cfg)
              (deduplicar (coluna_processo_planilha cfg) df) with
      | inl _ => raise (ExcValue VIndexNotUnique)
      | inr dados_processos =>
          print (MsgDicionario (size dados_processos)) ;;; ret (Some dados_processos)
      end
  end.

(** Lines 102-110. *)
Definition escanear_pasta (pasta : pystr) : PyM (list pystr) :=
  existe <- os_path_exists pasta ;;
  if negb existe then raise (ExcFileNotFound pasta) else
  diretorio <- os_path_isdir pasta ;;
  if negb diretorio then raise (ExcNotADirectory pasta) else
  arquivos_na_pasta <- arquivos_da_pasta pasta ;;
  print (MsgEncontrados (length arquivos_na_pasta) pasta) ;;;
  ret arquivos_na_pasta.

(** The body of the [try] of lines 59-181. *)
Definition corpo (cfg : config) : PyM resultado :=
  od <- carregar_planilha cfg ;;
  match od with
  | None => ret SemLinhas
  | Some dados_processos =>
      arquivos_na_pasta <- escanear_pasta (pasta_arquivos cfg) ;;
      match arquivos_na_pasta with
      | [] => print MsgAvisoSemArquivos ;;; ret SemArquivos
      | _ =>
          print MsgIniciando ;;;
          c <- processar_arquivos cfg dados_processos arquivos_na_pasta (mk_contadores 0 0 0) ;;
          print (MsgResumo (length arquivos_na_pasta) (sucessos c) (nao_encontrados c) (erros c)) ;;;
          ret (Concluido (length arquivos_na_pasta) (sucessos c) (nao_encontrados c) (erros c))
      end
  end.

(** Lines 28-202. *)
Definition renomear_arquivos_por_planilha (cfg : config) : PyM resultado :=
  print (MsgInicio (caminho_planilha cfg) (nome_aba_planilha cfg) (pasta_arquivos cfg)) ;;;
  catch (corpo cfg) (fun e => print (MsgErroFatal e) ;;; ret (ErroFatal (tratador_de e) e)).

(** Lines 252-254: [while not os.path.isdir(p): print(...); p = input(...)].
    Each turn reads the next line the user types. *)
Fixpoint validar_pasta (p : pystr) (entradas : list pystr) : PyM (pystr * list pystr) :=
  diretorio <- os_path_isdir p ;;
  if diretorio then ret (p, entradas) else
  print (MsgCaminhoInvalido p) ;;;
  match entradas with
  | [] => raise ExcEOF
  | p' :: resto => validar_pasta p' resto
  end.

(** Lines 247-269. *)
Definition main (entradas : list pystr) : PyM resultado :=
  r0 <- input entradas ;;
  let '(p, resto) := r0 in
  r1 <- validar_pasta p resto ;;
  let '(pasta, resto') := r1 in
  r <- renomear_arquivos_por_planilha (config_padrao pasta) ;;
  print MsgPressioneEnter ;;;
  _ <- input resto' ;;
  ret r.

(** The first of the paths [ps] that is a directory, with the lines typed
    after it: what the loop of lines 252-254 is meant to return. *)
Fixpoint primeira_pasta (w : world) (ps : list pystr) : option (pystr * list pystr) :=
  match ps with
  | [] => None
  | p :: ps' => if path_isdir w p then Some (p, ps') else primeira_pasta w ps'
  end.

(** ** The spreadsheet checks *)

(** C19: when the spreadsheet path does not exist, the run ends in the
    [FileNotFoundError] handler of line 183, before reading anything, without
    touching the folder. *)
Theorem planilha_ausente cfg w :
  path_exists w (caminho_planilha cfg) = false ->
  exists w', renomear_arquivos_por_planilha cfg w =
    (inr (ErroFatal TrArquivoOuPasta (ExcFileNotFound (caminho_planilha cfg))), w') /\
    w_fs w' = w_fs w /\ w_chamadas w' = w_chamadas w.
Proof.
  intros H. unfold renomear_arquivos_por_planilha, corpo, carregar_planilha, catch, bind,
    print, modify, os_path_exists, ret, raise, path_exists in *.
  cbn [w_fs w_ocupado w_relogio w_chamadas w_saida]. rewrite H. simpl. eauto.
Qed.

(** C18: a configured column missing from the sheet's header makes
    [pd.read_excel] raise [ValueError] (usecols do not match), so the run ends
    in the handler of line 195, not in the [KeyError] handler of line 192
    that prints the column advice; nothing is renamed. *)
Theorem coluna_ausente cfg w wb sh falta faltando :
  w_fs w !! caminho_planilha cfg = Some (NFile (Some wb)) ->
  wb !! nome_aba_planilha cfg = Some sh ->
  colunas_faltando (cabecalho sh)
    [coluna_processo_planilha cfg; coluna_cliente_planilha cfg;
     coluna_parte_adversa_planilha cfg; coluna_advogado_planilha cfg] = falta :: faltando ->
  exists w', renomear_arquivos_por_planilha cfg w =
    (inr (ErroFatal TrValor (ExcValue (VUsecolsMismatch (falta :: faltando)))), w') /\
    w_fs w' = w_fs w /\ w_chamadas w' = w_chamadas w.
Proof.
  intros Hf Hs Hc. unfold renomear_arquivos_por_planilha, corpo, carregar_planilha, catch, bind,
    print, modify, os_path_exists, pd_read_excel, ret, raise, path_exists.
  cbn -[ler_aba]. rewrite Hf. cbn -[ler_aba]. rewrite Hf, Hs. unfold ler_aba. rewrite Hc. cbn. eauto.
Qed.

(** ** Effects of the steps *)

Lemma carregar_planilha_preserva cfg : preserva_fs (carregar_planilha cfg).
Proof. unfold carregar_planilha. efeitos. Qed.

Lemma escanear_pasta_preserva pasta : preserva_fs (escanear_pasta pasta).
Proof. unfold escanear_pasta. efeitos. Qed.

(** The validation loop of lines 252-254 only reads the file system. *)
Lemma validar_pasta_preserva p entradas : preserva_fs (validar_pasta p entradas).
Proof.
  revert p. induction entradas as [|p' entradas IH]; intros p; simpl; efeitos.
Qed.

Lemma carregar_planilha_levanta cfg :
  levanta_so (fun e => match e with
                       | ExcFileNotFound _ | ExcValue _ | ExcOS EACCES => True
                       | _ => False end) (carregar_planilha cfg).
Proof. unfold carregar_planilha. efeitos; try done. apply levanta_pd_read_excel. Qed.

Lemma escanear_pasta_levanta pasta :
  levanta_so (fun e => e = ExcFileNotFound pasta \/ e = ExcNotADirectory pasta)
    (escanear_pasta pasta).
Proof. unfold escanear_pasta. efeitos; auto. Qed.

(** An existing folder is listed without exception. *)
Lemma escanear_pasta_dir pasta w :
  path_isdir w pasta = true ->
  exists l w', escanear_pasta pasta w = (inr l, w').
Proof.
  intros Hd. pose proof (path_isdir_exists w pasta Hd) as He.
  unfold escanear_pasta, bind, os_path_exists, os_path_isdir, arquivos_da_pasta, print, modify, ret.
  rewrite He. cbn -[path_isdir]. rewrite Hd. simpl. eauto.
Qed.

(** What the body of the [try] returns without raising: never a handler's
    outcome, and a summary only with the counters of the loop. *)
Lemma corpo_inr cfg w r w' :
  corpo cfg w = (inr r, w') ->
  match r with
  | Concluido total s n e =>
      (0 <= atraso_entre_tentativas cfg)%Z -> (1 <= max_tentativas cfg)%Z ->
      exists falhas, e = 2 * falhas /\ s + n + falhas = total
  | ErroFatal _ _ => False
  | _ => True
  end.
Proof.
  unfold corpo, bind at 1.
  destruct (carregar_planilha cfg w) as [[e0|[dados|]] w2]; [congruence| |unfold ret; by intros [= <- _]].
  unfold bind at 1. destruct (escanear_pasta (pasta_arquivos cfg) w2) as [[e1|arqs] w3];
    [congruence|].
  destruct arqs as [|a arqs]; [unfold bind, print, modify, ret; by intros [= <- _]|].
  unfold bind at 1, print, modify. cbn beta iota. unfold bind at 1.
  destruct (processar_arquivos cfg dados (a :: arqs) _ _) as [[e2|c'] w5] eqn:E; [congruence|].
  unfold bind, print, modify, ret. intros [= <- _] Hd Hm.
  destruct (processar_arquivos_contas cfg dados Hd Hm (a :: arqs) (mk_contadores 0 0 0)
    {| w_fs := w_fs w3; w_ocupado := w_ocupado w3; w_relogio := w_relogio w3;
       w_chamadas := w_chamadas w3; w_saida := MsgIniciando :: w_saida w3 |})
    as (c'' & w6 & f & E' & Herr & Hsum).
  rewrite E in E'. injection E' as <- <-. simpl in *. exists f. split; lia.
Qed.

(** Reading the spreadsheet calls neither [os.rename] nor [time.sleep]. *)
Lemma carregar_planilha_chamadas cfg : preserva_chamadas (carregar_planilha cfg).
Proof. unfold carregar_planilha. efeitos. Qed.

(** An [OSError] that leaves the body of the [try] comes from reading the
    spreadsheet, before any [os.rename]: the loop over the files catches
    every [OSError] of a rename (line 164). *)
Lemma corpo_oserror cfg w oe w' :
  corpo cfg w = (inl (ExcOS oe), w') -> w_chamadas w' = w_chamadas w.
Proof.
  unfold corpo, bind at 1. destruct (carregar_planilha cfg w) as [[e0|[dados|]] w2] eqn:Ec.
  - intros [= -> <-]. pose proof (carregar_planilha_chamadas cfg w) as H. by rewrite Ec in H.
  - cbv beta iota.
    match goal with |- ?m w2 = _ -> _ =>
      assert (Hlev : levanta_so (fun e => match e with ExcOS _ => False | _ => True end) m) end.
    { apply levanta_bind;
        [eapply levanta_mono; [|apply escanear_pasta_levanta]; by intros ? [-> | ->]|].
      intros [|a arqs]; efeitos.
      eapply levanta_mono; [|apply processar_arquivos_levanta]. by intros ? ->. }
    intros Hr. by apply Hlev in Hr.
  - unfold ret. congruence.
Qed.

(** With the folder a directory, the body raises no [NotADirectoryError]. *)
Lemma corpo_nao_diretorio cfg w e w' :
  path_isdir w (pasta_arquivos cfg) = true ->
  corpo cfg w = (inl e, w') -> forall x, e <> ExcNotADirectory x.
Proof.
  intros Hd. unfold corpo, bind at 1.
  destruct (carregar_planilha cfg w) as [[e0|[dados|]] w2] eqn:Ec.
  - intros [= <- _] x ->. by apply (carregar_planilha_levanta cfg w _ w2) in Ec.
  - assert (Hd2 : path_isdir w2 (pasta_arquivos cfg) = true).
    { rewrite <- Hd. apply path_isdir_fs. pose proof (carregar_planilha_preserva cfg w) as P.
      rewrite Ec in P. done. }
    destruct (escanear_pasta_dir _ _ Hd2) as (arqs & w3 & Ee).
    unfold bind at 1. rewrite Ee. intros Hr x ->.
    assert (Hlev : levanta_so (fun e => e = ExcValue VNegativeSleep)
      (match arqs with
       | [] => print MsgAvisoSemArquivos;;; ret SemArquivos
       | _ :: _ =>
           print MsgIniciando;;;
           c <- processar_arquivos cfg dados arqs (mk_contadores 0 0 0);;
           print (MsgResumo (length arqs) (sucessos c) (nao_encontrados c) (erros c));;;
           ret (Concluido (length arqs) (sucessos c) (nao_encontrados c) (erros c))
       end)).
    { destruct arqs; efeitos. apply processar_arquivos_levanta. }
    by apply Hlev in Hr.
  - unfold ret. congruence.
Qed.

(** ** The run as a whole *)

(** [renomear_arquivos_por_planilha] always returns: the handlers of lines
    183-202 catch every exception of the body. *)
Lemma renomear_inr cfg w : exists r w', renomear_arquivos_por_planilha cfg w = (inr r, w').
Proof.
  unfold renomear_arquivos_por_planilha, bind at 1, print at 1, modify. cbn beta iota. unfold catch.
  destruct (corpo cfg _) as [[e|r] w2]; unfold bind, print, modify, ret; eauto.
Qed.

(** What a run returns: the body's value, or the outcome of the handler of
    the exception the body raised, after the banner of lines 53-57. *)
Lemma renomear_resultado cfg w r w' :
  renomear_arquivos_por_planilha cfg w = (inr r, w') ->
  let w1 := snd (print (MsgInicio (caminho_planilha cfg) (nome_aba_planilha cfg)
                          (pasta_arquivos cfg)) w) in
  exists w2, corpo cfg w1 = (inr r, w2) \/
             exists e, corpo cfg w1 = (inl e, w2) /\ r = ErroFatal (tratador_de e) e.
Proof.
  unfold renomear_arquivos_por_planilha, bind at 1, print at 1, modify. cbn beta iota zeta.
  unfold catch. destruct (corpo cfg _) as [[e|r'] w2] eqn:E; intros Hr.
  - unfold bind, print, modify, ret in Hr. injection Hr as <- _. eauto.
  - injection Hr as -> _. eauto.
Qed.

(** C20: a run of [renomear_arquivos_por_planilha] always returns (every
    exception is caught by the handlers of lines 183-202), and when it
    prints a summary, with at least one attempt and a non-negative delay,
    its counters are [erros = 2 * falhas] and
    [sucessos + nao_encontrados + falhas = total]: the three counters add up
    to the number of files only when no rename failed. *)
Theorem renomear_resumo cfg w :
  (0 <= atraso_entre_tentativas cfg)%Z -> (1 <= max_tentativas cfg)%Z ->
  exists r w', renomear_arquivos_por_planilha cfg w = (inr r, w') /\
    forall total s n e, r = Concluido total s n e ->
    exists falhas, e = 2 * falhas /\ s + n + falhas = total.
Proof.
  intros Hd Hm. destruct (renomear_inr cfg w) as (r & w' & E). exists r, w'. split; [done|].
  intros total s n e ->. apply renomear_resultado in E as [w2 [Hc | (e' & _ & [=])]].
  exact (corpo_inr _ _ _ _ Hc Hd Hm).
Qed.

(** C7: failures of a rename stay local to their file (section 7 of the
    specification): when a run ends in a handler of lines 183-202 with an
    [OSError], the run made no [os.rename] call, so the error came from
    reading the spreadsheet (a directory in its place); every [OSError] of
    [os.rename] is caught per file at line 164. *)
Theorem renomear_oserror_sem_rename cfg w oe w' :
  renomear_arquivos_por_planilha cfg w = (inr (ErroFatal (tratador_de (ExcOS oe)) (ExcOS oe)), w') ->
  w_chamadas w' = w_chamadas w.
Proof.
  unfold renomear_arquivos_por_planilha, bind at 1, print at 1, modify. cbv beta iota zeta.
  unfold catch. destruct (corpo cfg _) as [[e|r] w2] eqn:E.
  - unfold bind, print, modify, ret. intros [= _ He <-]. subst e.
    apply corpo_oserror in E. simpl. by rewrite E.
  - intros [= Hr _]. apply corpo_inr in E. by rewrite Hr in E.
Qed.

(** ** The [__main__] block *)

Lemma primeira_pasta_cons w p ps :
  primeira_pasta w (p :: ps) = if path_isdir w p then Some (p, ps) else primeira_pasta w ps.
Proof. done. Qed.

Lemma primeira_pasta_fs w w' ps :
  w_fs w = w_fs w' -> primeira_pasta w ps = primeira_pasta w' ps.
Proof.
  intros Hfs. induction ps as [|p ps IH]; cbn [primeira_pasta]; [done|].
  by rewrite (path_isdir_fs w w' p Hfs), IH.
Qed.

Lemma primeira_pasta_dir w ps q resto :
  primeira_pasta w ps = Some (q, resto) -> path_isdir w q = true.
Proof.
  induction ps as [|p ps IH]; cbn [primeira_pasta]; [done|].
  destruct (path_isdir w p) eqn:E; [by intros [= <- _]|done].
Qed.

(** C10: the validation loop of lines 252-254 terminates: it stops at the
    first of the typed paths that is a directory and returns it with the
    lines still to be read, or raises [EOFError] when the lines run out
    before one is; it does not change the file system. *)
Theorem validar_pasta_termina p entradas w :
  fst (validar_pasta p entradas w) =
    match primeira_pasta w (p :: entradas) with
    | Some r => inr r
    | None => inl ExcEOF
    end /\
  w_fs (snd (validar_pasta p entradas w)) = w_fs w.
Proof.
  revert p w. induction entradas as [|p' entradas IH]; intros p w;
    cbn [validar_pasta]; rewrite primeira_pasta_cons;
    unfold bind, os_path_isdir, print, modify, raise, ret; cbn beta iota;
    destruct (path_isdir w p); try by split.
  match goal with |- context [validar_pasta p' entradas ?w1] =>
    destruct (IH p' w1) as [H1 H2] end.
  destruct (validar_pasta p' entradas _) as [r w2]. simpl in *. rewrite H1, H2.
  split; [|done]. by rewrite (primeira_pasta_fs _ w).
Qed.

(** The folder the loop returns is a directory when it returns. *)
Lemma validar_pasta_dir p entradas w q resto w' :
  validar_pasta p entradas w = (inr (q, resto), w') -> path_isdir w' q = true.
Proof.
  revert p w. induction entradas as [|p' entradas IH]; intros p w;
    cbn [validar_pasta]; unfold bind, os_path_isdir, print, modify, raise, ret; cbv beta iota;
    destruct (path_isdir w p) eqn:Hd; [by intros [= <- _ <-]|congruence|by intros [= <- _ <-]|].
  apply IH.
Qed.

(** C13: a run of the [__main__] block that returns never ends in the
    [NotADirectoryError] handler of line 189: the loop of lines 252-254 only
    lets a directory through, and nothing changes the file system before
    the check of line 106. *)
Theorem main_nao_diretorio entradas w r w' :
  main entradas w = (inr r, w') -> forall e, r <> ErroFatal TrNaoDiretorio e.
Proof.
  unfold main, bind at 1. destruct (input entradas w) as [[e0|[p resto]] w0]; [congruence|].
  unfold bind at 1. destruct (validar_pasta p resto w0) as [[e1|[q resto']] w1] eqn:Ev;
    [congruence|].
  unfold bind at 1. destruct (renomear_arquivos_por_planilha (config_padrao q) w1)
    as [[e2|r'] w2] eqn:Er; [congruence|].
  unfold bind, print, modify, input, ret. destruct resto'; [congruence|].
  intros [= <- _] e ->. apply validar_pasta_dir in Ev.
  apply renomear_resultado in Er as [w3 [Hc | (e' & Hc & He)]]; [by apply corpo_inr in Hc|].
  injection He as Ht <-.
  destruct e as [[]| | x | |]; try discriminate.
  refine (corpo_nao_diretorio (config_padrao q) _ (ExcNotADirectory x) w3 _ Hc x eq_refl).
  exact Ev.
Qed.

(** ** Witnesses *)

Lemma planilha_ausente_witness :
  exists w', renomear_arquivos_por_planilha (config_padrao (lit "y:\p"))
      (mk_world ∅ (fun _ _ => false) 0 [] []) =
    (inr (ErroFatal TrArquivoOuPasta
            (ExcFileNotFound (caminho_planilha (config_padrao (lit "y:\p"))))), w') /\
    w_fs w' = w_fs (mk_world ∅ (fun _ _ => false) 0 [] []) /\
    w_chamadas w' = w_chamadas (mk_world ∅ (fun _ _ => false) 0 [] []).
Proof.
  destruct (planilha_ausente (config_padrao (lit "y:\p")) (mk_world ∅ (fun _ _ => false) 0 [] []))
    as [w' H]; [reflexivity|]. exists w'. exact H.
Defined.

Lemma coluna_ausente_witness :
  exists w', renomear_arquivos_por_planilha (config_padrao (lit "y:\p"))
      (mk_world {[CAMINHO_PARA_MINHA_PLANILHA := NFile (Some {[NOME_DA_ABA_PLANILHA :=
                   mk_sheet [COLUNA_NUMERO_PROCESSO; COLUNA_NOME_CLIENTE; COLUNA_PARTE_ADVERSA] []]})]}
         (fun _ _ => false) 0 [] []) =
    (inr (ErroFatal TrValor (ExcValue (VUsecolsMismatch [COLUNA_NOME_ADVOGADO]))), w') /\
    w_fs w' = {[CAMINHO_PARA_MINHA_PLANILHA := NFile (Some {[NOME_DA_ABA_PLANILHA :=
                mk_sheet [COLUNA_NUMERO_PROCESSO; COLUNA_NOME_CLIENTE; COLUNA_PARTE_ADVERSA] []]})]} /\
    w_chamadas w' = [].
Proof.
  destruct (coluna_ausente (config_padrao (lit "y:\p"))
    (mk_world {[CAMINHO_PARA_MINHA_PLANILHA := NFile (Some {[NOME_DA_ABA_PLANILHA :=
       mk_sheet [COLUNA_NUMERO_PROCESSO; COLUNA_NOME_CLIENTE; COLUNA_PARTE_ADVERSA] []]})]}
       (fun _ _ => false) 0 [] [])
    {[NOME_DA_ABA_PLANILHA :=
       mk_sheet [COLUNA_NUMERO_PROCESSO; COLUNA_NOME_CLIENTE; COLUNA_PARTE_ADVERSA] []]}
    (mk_sheet [COLUNA_NUMERO_PROCESSO; COLUNA_NOME_CLIENTE; COLUNA_PARTE_ADVERSA] [])
    COLUNA_NOME_ADVOGADO [])
    as [w' H]; [vm_compute; reflexivity|vm_compute; reflexivity|vm_compute; reflexivity|].
  exists w'. exact H.
Defined.

Lemma main_nao_diretorio_witness :
  ErroFatal TrArquivoOuPasta (ExcFileNotFound CAMINHO_PARA_MINHA_PLANILHA)
  <> ErroFatal TrNaoDiretorio (ExcNotADirectory (lit "y:\p")).
Proof.
  refine (main_nao_diretorio [lit "y:\p"; lit ""]
    (mk_world {[lit "y:\p" := NDir]} (fun _ _ => false) 0 [] [])
    (ErroFatal TrArquivoOuPasta (ExcFileNotFound CAMINHO_PARA_MINHA_PLANILHA))
    (snd (main [lit "y:\p"; lit ""] (mk_world {[lit "y:\p" := NDir]} (fun _ _ => false) 0 [] [])))
    _ (ExcNotADirectory (lit "y:\p"))).
  vm_compute. reflexivity.
Defined.

Lemma renomear_resumo_witness :
  exists r w', renomear_arquivos_por_planilha (config_padrao (lit "y:\p"))
      (mk_world ∅ (fun _ _ => false) 0 [] []) = (inr r, w') /\
    forall total s n e, r = Concluido total s n e ->
    exists falhas, e = 2 * falhas /\ s + n + falhas = total.
Proof.
  destruct (renomear_resumo (config_padrao (lit "y:\p")) (mk_world ∅ (fun _ _ => false) 0 [] []))
    as (r & w' & H); [vm_compute; discriminate|vm_compute; discriminate|].
  exists r, w'. exact H.
Defined.

Lemma renomear_oserror_sem_rename_witness :
  w_chamadas (snd (renomear_arquivos_por_planilha (config_padrao (lit "y:\p"))
    (mk_world {[CAMINHO_PARA_MINHA_PLANILHA := NDir]} (fun _ _ => false) 0 [] []))) = [].
Proof.
  refine (renomear_oserror_sem_rename (config_padrao (lit "y:\p"))
    (mk_world {[CAMINHO_PARA_MINHA_PLANILHA := NDir]} (fun _ _ => false) 0 [] []) EACCES
    (snd (renomear_arquivos_por_planilha (config_padrao (lit "y:\p"))
      (mk_world {[CAMINHO_PARA_MINHA_PLANILHA := NDir]} (fun _ _ => false) 0 [] []))) _).
  vm_compute. reflexivity.
Defined.
