(* ===== verification/Conserva.v ===== *)
(** * No file is lost: the conservation invariant of the file system

    The only call of the program that writes to the file system is
    [os.rename] (line 159), and on Windows it moves one entry to a free path
    (or leaves it where it is) and never replaces an existing entry.  So the
    entries of the file system after any run (directories, and files with
    their contents) are those before it, each perhaps under another path.

    [conteudo fs] lists the entries of [fs] without their paths;
    [mesmo_conteudo] relates two file systems whose lists of entries are
    permutations of each other, an equivalence.  [conserva m] states that
    [m] keeps the file system in that relation, whether it returns or
    raises.  It is proved action by action ([mover_conserva] for the move
    of [os.rename]) and composed through [bind] and [catch], in the manner
    of a unary program logic, up to the whole [__main__] block. *)

From S2P Require Import Prelude.
From S2P Require Import PyStr.
From S2P Require Import Config.
From S2P Require Import Table.
From S2P Require Import World.
From S2P Require Import Retry.
From S2P Require Import Renamer.
From S2P Require Import Main.
From stdpp Require Import base list gmap strings.
From Stdlib Require Import ZArith Lia.

Local Open Scope py_scope.

(** ** The invariant *)

(** The entries of a file system, in the order of the map, without their
    paths. *)
Definition conteudo (fs : gmap pystr node) : list node := snd <$> map_to_list fs.

Definition mesmo_conteudo (fs1 fs2 : gmap pystr node) : Prop :=
  conteudo fs1 ≡ₚ conteudo fs2.

#[export] Instance mesmo_conteudo_equivalence : Equivalence mesmo_conteudo.
Proof.
  unfold mesmo_conteudo. split; red; intros *; [done|by intros ->|intros H1 H2; by etrans].
Qed.

(** A computation keeps the entries of the file system, up to their paths,
    whatever it returns or raises. *)
Definition conserva {A} (m : PyM A) : Prop :=
  forall w, mesmo_conteudo (w_fs (snd (m w))) (w_fs w).

(** ** The move of [os.rename] *)

(** Moving an entry to a free path, or onto itself, keeps the entries. *)
Lemma mover_conserva fs src dst n :
  fs !! src = Some n -> src = dst \/ fs !! dst = None ->
  mesmo_conteudo (mover fs src dst) fs.
Proof.
  intros Hs Hd. unfold mover, mesmo_conteudo, conteudo. rewrite Hs.
  destruct (decide (src = dst)) as [<-|Hne]; [by rewrite insert_delete_id|].
  destruct Hd as [|Hd]; [done|].
  rewrite map_to_list_insert by (by rewrite lookup_delete_ne).
  rewrite <- (map_to_list_delete fs src n Hs). done.
Qed.

(** File systems with the same entries have the same number of paths. *)
Lemma mesmo_conteudo_size fs1 fs2 : mesmo_conteudo fs1 fs2 -> size fs1 = size fs2.
Proof.
  unfold mesmo_conteudo, conteudo. intros H%Permutation_length.
  rewrite !length_fmap, !length_map_to_list in H. done.
Qed.

(** ** Composition *)

Lemma conserva_preserva {A} (m : PyM A) : preserva_fs m -> conserva m.
Proof. intros Hm w. rewrite Hm. reflexivity. Qed.

Lemma conserva_bind {A B} (m : PyM A) (k : A -> PyM B) :
  conserva m -> (forall a, conserva (k a)) -> conserva (bind m k).
Proof.
  intros Hm Hk w. unfold bind. specialize (Hm w).
  destruct (m w) as [[e|a] w']; simpl in *; [done|]. etrans; [apply Hk|exact Hm].
Qed.

Lemma conserva_catch {A} (m : PyM A) h :
  conserva m -> (forall e, conserva (h e)) -> conserva (catch m h).
Proof.
  intros Hm Hh w. unfold catch. specialize (Hm w).
  destruct (m w) as [[e|a] w']; simpl in *; [|done]. etrans; [apply Hh|exact Hm].
Qed.

Lemma conserva_os_rename src dst : conserva (os_rename src dst).
Proof.
  intros w. unfold os_rename. destruct (rename_falha w src dst) eqn:E; simpl; [reflexivity|].
  destruct (rename_falha_none _ _ _ E) as (n & Hs & Hd). by eapply mover_conserva.
Qed.

Lemma conserva_time_sleep d : conserva (time_sleep d).
Proof. intros w. unfold time_sleep. case_match; reflexivity. Qed.

#[local] Hint Resolve carregar_planilha_preserva escanear_pasta_preserva
  validar_pasta_preserva : efeitos.

(** Decompose a computation into actions that conserve the entries. *)
Ltac conservar :=
  repeat first
    [ apply conserva_os_rename
    | apply conserva_time_sleep
    | apply conserva_preserva; solve [auto with efeitos]
    | match goal with
      | |- conserva (bind _ _) => apply conserva_bind; [|intros ?]
      | |- conserva (catch _ _) => apply conserva_catch; [|intros ?]
      | |- conserva (if ?b then _ else _) => destruct b
      | |- conserva (match ?x with _ => _ end) => destruct x
      end ].

(** ** The program, component by component *)

Lemma conserva_laco antigo novo nome_antigo novo_nome max_tentativas atraso ts c :
  conserva (laco_tentativas antigo novo nome_antigo novo_nome max_tentativas atraso ts c).
Proof. revert c. induction ts as [|t ts IH]; intros c; cbn [laco_tentativas]; conservar; auto. Qed.

Lemma conserva_tentar antigo novo nome_antigo novo_nome max_tentativas atraso c :
  conserva (tentar_renomear antigo novo nome_antigo novo_nome max_tentativas atraso c).
Proof. unfold tentar_renomear. conservar. apply conserva_laco. Qed.

Lemma conserva_processar_arquivos cfg dados nomes c :
  conserva (processar_arquivos cfg dados nomes c).
Proof.
  revert c. induction nomes as [|nome nomes IH]; intros c; cbn [processar_arquivos]; conservar;
    [|apply IH].
  unfold processar_arquivo. destruct (splitext nome). conservar. apply conserva_tentar.
Qed.

Lemma conserva_renomear cfg : conserva (renomear_arquivos_por_planilha cfg).
Proof. unfold renomear_arquivos_por_planilha, corpo. conservar. apply conserva_processar_arquivos. Qed.

(** ** The whole program *)

(** C2: no run of the program loses, duplicates or overwrites an entry of
    the file system: whatever the spreadsheet, the folder, the files held
    open and the lines the user types, the entries after the run of the
    [__main__] block (lines 247-269) are those before it, each file with
    its contents, only their paths may differ.  It holds because the
    Windows [os.rename] of line 159 refuses an existing target. *)
Theorem main_conserva entradas w :
  mesmo_conteudo (w_fs (snd (main entradas w))) (w_fs w).
Proof. revert w. change (conserva (main entradas)). unfold main. conservar. apply conserva_renomear. Qed.
